(** * mediawords.util.web.useragent: a shallow embedding

    The development follows [mediawords/util/web/useragent.py]: the
    [UserAgent] class (single-request executor, redirect resolver,
    retry configuration) and the static [parallel_get] scheduler.

    Conventions.
    - Python [int] is [Z]; [a % b] is [Z.modulo] (both take the sign of the
      divisor), with [ZeroDivisionError] written out where [b] can be 0.
    - Python [str] is [string], read as the UTF-8 bytes of the text;
      [len_chars] counts its characters, and [len_str], its bytes, is
      used where the code only compares a length with 0.
    - A [dict] whose iteration order matters is an association list in
      insertion order.
    - [raise] is the [Raise] constructor of [result]; code that also
      mutates objects, writes the audit log or talks to the network runs in
      the state-and-exception monad [M].
    - Everything the module imports (URL helpers, HTML redirect rules,
      [re], the [requests] transport, the configuration) is a field of
      [Env]; theorems hold for every [Env].
    - Outside the model: wall-clock time (the workers' sleeps), the file
      lock of the audit log, the log lines of worker processes, and the
      logging calls. *)

From stdpp Require Import base numbers list sorting strings gmap.
From Stdlib Require Import ZArith Ascii.

Set Default Proof Using "Type".
Set Warnings "-register-all".
#[local] Open Scope Z_scope.

(** ** Exceptions and results *)

Inductive exn : Type :=
  | McUserAgentException (msg : string)
  | McCrawlerAuthenticatedDomainsException (msg : string)
  | McGetException (msg : string)
  | McGetFollowHTTPHTMLRedirectsException (msg : string)
  | McParallelGetException (msg : string)
  | McRequestException (msg : string)
  | ZeroDivisionError
  | IndexError
  | TypeError
  | KeyError (key : string)
  | ValueError (msg : string)
  (* an exception of the [requests] library that no handler of this
     module catches: its class and its text *)
  | RequestException (class_name msg : string).

Inductive result (A : Type) : Type :=
  | Ok (a : A)
  | Raise (e : exn).
Arguments Ok {A} a.
Arguments Raise {A} e.

#[global] Instance result_ret : MRet result := fun _ a => Ok a.
#[global] Instance result_bind : MBind result := fun _ _ f r =>
  match r with
  | Ok a => f a
  | Raise e => Raise e
  end.

Definition is_Ok {A} (r : result A) : Prop := exists a, r = Ok a.
Definition raises {A} (r : result A) : Prop := exists e, r = Raise e.

(** ** Python built-ins on strings and lists *)

(** [len(s)] of a [str] where the code compares it with 0: the bytes of
    the text, none exactly when the text is empty. *)
Definition len_str (s : string) : Z := Z.of_nat (String.length s).

(** [len(s)] of a [str]: the number of its characters. In UTF-8 every
    character starts with one byte that is not of the form [10xxxxxx]. *)
Definition is_continuation_byte (c : ascii) : bool :=
  let n := nat_of_ascii c in (128 <=? n)%nat && (n <? 192)%nat.

Fixpoint len_chars (s : string) : Z :=
  match s with
  | EmptyString => 0%Z
  | String c s' =>
      ((if is_continuation_byte c then 0 else 1) + len_chars s')%Z
  end.
Definition len {A} (l : list A) : Z := Z.of_nat (length l).

(** [l[i]] with Python's negative indices. *)
Definition py_index {A} (l : list A) (i : Z) : result A :=
  let j := if (i <? 0)%Z then (i + len l)%Z else i in
  if (j <? 0)%Z then Raise IndexError
  else match l !! Z.to_nat j with
       | Some x => Ok x
       | None => Raise IndexError
       end.

Definition lower_ascii (c : ascii) : ascii :=
  let n := nat_of_ascii c in
  if (65 <=? n)%nat && (n <=? 90)%nat then ascii_of_nat (n + 32) else c.

(** [str.lower()] on ASCII text. *)
Fixpoint str_lower (s : string) : string :=
  match s with
  | EmptyString => EmptyString
  | String c s' => String (lower_ascii c) (str_lower s')
  end.

(** [sep.join(parts)]. *)
Fixpoint str_join (sep : string) (parts : list string) : string :=
  match parts with
  | [] => EmptyString
  | [p] => p
  | p :: ps => p +:+ sep +:+ str_join sep ps
  end.

(** [s.split(sep)] for a one-character separator: never empty. *)
Fixpoint str_split_aux (sep : ascii) (s : string) (cur : string) : list string :=
  match s with
  | EmptyString => [cur]
  | String c s' =>
      if Ascii.eqb c sep then cur :: str_split_aux sep s' EmptyString
      else str_split_aux sep s' (cur +:+ String c EmptyString)
  end.
Definition str_split (sep : ascii) (s : string) : list string :=
  str_split_aux sep s EmptyString.

(** ** Insertion-ordered dictionaries *)

Section dict.
Context {K V : Type} `{EqDecision K}.

Definition dict := list (K * V).

Fixpoint dict_get (k : K) (d : dict) : option V :=
  match d with
  | [] => None
  | (k', v) :: d' => if decide (k = k') then Some v else dict_get k d'
  end.

Definition dict_contains (k : K) (d : dict) : bool :=
  match dict_get k d with Some _ => true | None => false end.

(** [d[k] = v]: an existing key keeps its position, a new one goes last. *)
Fixpoint dict_set (k : K) (v : V) (d : dict) : dict :=
  match d with
  | [] => [(k, v)]
  | (k', v') :: d' =>
      if decide (k = k') then (k', v) :: d' else (k', v') :: dict_set k v d'
  end.

Definition dict_keys (d : dict) : list K := d.*1.
Definition dict_values (d : dict) : list V := d.*2.
End dict.
Arguments dict : clear implicits.

(** [if k not in d: d[k] = []] followed by [d[k].append(x)]. *)
Definition dict_append {K A} `{EqDecision K} (k : K) (x : A)
    (d : dict K (list A)) : dict K (list A) :=
  let d1 := if dict_contains k d then d else dict_set k [] d in
  match dict_get k d1 with
  | Some xs => dict_set k (xs ++ [x]) d1
  | None => d1
  end.

(** ** Configuration

    [py_get_config()['mediawords']], supplied by the configuration
    provider. A field is [None] when the key is absent (or set to [None]);
    for [owner] and [user_agent], which the constructor reads with
    [config['mediawords'][key]], [None] is the absent key. *)

Record AuthDomain : Type := {
  ad_domain : option string;
  ad_user : option string;
  ad_password : option string;
}.

Record Config : Type := {
  owner : option string;
  user_agent : option string;
  crawler_authenticated_domains : option (list AuthDomain);
  blacklist_url_pattern : option string;
  web_store_num_parallel : option Z;
  web_store_timeout : option Z;
  web_store_per_domain_timeout : option Z;
  data_dir : string;
}.

(** ** Request / Response model *)

Definition Headers := list (string * string).

(** Modelled from the spec: [mediawords.util.web.ua.request.Request] is not
    part of this module. The record has the fields the spec's data model
    lists and that [request()] reads through [method()], [url()],
    [headers()], [content()], [auth_username()] and [auth_password()];
    each accessor may return [None], which the code checks for. *)
Record Request : Type := {
  rq_method : option string;
  rq_url : option string;
  rq_headers : option Headers;
  rq_content : option string;
  rq_auth_username : option string;
  rq_auth_password : option string;
}.

(** [Request(method=..., url=...)]. *)
Definition Request_new (method url : string) : Request :=
  {| rq_method := Some method; rq_url := Some url; rq_headers := Some [];
     rq_content := None; rq_auth_username := None; rq_auth_password := None |}.

Definition Request_set_url (rq : Request) (url : string) : Request :=
  {| rq_method := rq_method rq; rq_url := Some url;
     rq_headers := rq_headers rq; rq_content := rq_content rq;
     rq_auth_username := rq_auth_username rq;
     rq_auth_password := rq_auth_password rq |}.

(** The objects of the [requests] library that [request()] handles. *)
Record PreparedRequest : Type := {
  pr_method : string;
  pr_url : string;
  pr_headers : Headers;
  pr_body : option string;
}.

(** What [iter_content(chunk_size=None, decode_unicode=True)] does each
    time the loop asks for the next chunk: it yields a [str], or the raw
    [bytes] (the body of a response without an encoding is not decoded),
    or it is exhausted, or it raises (the connection breaks or the read
    times out while the body is streamed). *)
Inductive Chunk : Type :=
  | Text (s : string)
  | Bytes (b : string).

Inductive Stream : Type :=
  | StopIteration
  | StreamRaises (e : exn)
  | Yield (chunk : Chunk) (rest : Stream).

(** The stream that yields the text [chunks] and goes on as [rest]. *)
Definition yields (chunks : list string) (rest : Stream) : Stream :=
  foldr (fun chunk s => Yield (Text chunk) s) rest chunks.

Inductive RequestsResponse : Type := mkRequestsResponse {
  status_code : Z;
  reason : string;
  rr_headers : Headers;
  rr_request : PreparedRequest;
  (* redirect hops recorded by the transport, oldest first *)
  history : list RequestsResponse;
  (* the body, as [iter_content(chunk_size=None, decode_unicode=True)]
     hands it out *)
  iter_content : Stream;
}.

(** [requests.Response()] with the fields the handlers then assign. *)
Definition RequestsResponse_new (status : Z) (reason_ : string)
    (request_ : PreparedRequest) (headers_ : Headers) : RequestsResponse :=
  mkRequestsResponse status reason_ headers_ request_ [] StopIteration.

(** Modelled from the spec: [mediawords.util.web.ua.response.Response] is
    not part of this module. Status code, reason, headers, body, the
    client-side-error flag, the originating request and the owned link
    [previous] to the response earlier in the redirect chain. *)
Inductive Response : Type := mkResponse {
  code : Z;
  message : string;
  headers : Headers;
  content : option string;
  error_is_client_side : bool;
  request_of : Request;
  previous : option Response;
}.

Definition Response_set_previous (r : Response) (p : option Response) : Response :=
  mkResponse (code r) (message r) (headers r) (content r)
             (error_is_client_side r) (request_of r) p.

Definition Response_set_request (r : Response) (rq : Request) : Response :=
  mkResponse (code r) (message r) (headers r) (content r)
             (error_is_client_side r) rq (previous r).

Definition Response_set_error_is_client_side (r : Response) (b : bool) : Response :=
  mkResponse (code r) (message r) (headers r) (content r) b
             (request_of r) (previous r).

(** Modelled from the spec: [Request.from_requests_prepared_request]. *)
Definition Request_from_requests_prepared_request (p : PreparedRequest) : Request :=
  {| rq_method := Some (pr_method p); rq_url := Some (pr_url p);
     rq_headers := Some (pr_headers p); rq_content := pr_body p;
     rq_auth_username := None; rq_auth_password := None |}.

(** Modelled from the spec: [Response.from_requests_response]; the status,
    reason and headers are taken verbatim, [data] is the body. *)
Definition Response_from_requests_response (rr : RequestsResponse)
    (data : option string) : Response :=
  mkResponse (status_code rr) (reason rr) (rr_headers rr) data false
             (Request_from_requests_prepared_request (rr_request rr)) None.

(** The responses reachable through [previous], nearest first. *)
Fixpoint previous_chain (r : Response) : list Response :=
  match previous r with
  | None => []
  | Some p => p :: previous_chain p
  end.

(** ** HTTPStatus *)

Inductive HTTPStatus : Type :=
  | BAD_REQUEST
  | REQUEST_TIMEOUT
  | TOO_MANY_REQUESTS
  | INTERNAL_SERVER_ERROR
  | BAD_GATEWAY
  | SERVICE_UNAVAILABLE
  | GATEWAY_TIMEOUT.

Definition HTTPStatus_value (s : HTTPStatus) : Z :=
  match s with
  | BAD_REQUEST => 400
  | REQUEST_TIMEOUT => 408
  | TOO_MANY_REQUESTS => 429
  | INTERNAL_SERVER_ERROR => 500
  | BAD_GATEWAY => 502
  | SERVICE_UNAVAILABLE => 503
  | GATEWAY_TIMEOUT => 504
  end.

Definition HTTPStatus_phrase (s : HTTPStatus) : string :=
  match s with
  | BAD_REQUEST => "Bad Request"
  | REQUEST_TIMEOUT => "Request Timeout"
  | TOO_MANY_REQUESTS => "Too Many Requests"
  | INTERNAL_SERVER_ERROR => "Internal Server Error"
  | BAD_GATEWAY => "Bad Gateway"
  | SERVICE_UNAVAILABLE => "Service Unavailable"
  | GATEWAY_TIMEOUT => "Gateway Timeout"
  end.

(** ** The session and the UserAgent object *)

(** [urllib3.Retry(total, backoff_factor, status_forcelist)]. *)
Record Retry : Type := {
  total : Z;
  backoff_factor : Z;
  status_forcelist : list Z;
}.

(** [HTTPAdapter(max_retries=...)]; [HTTPAdapter()] does not retry. *)
Record HTTPAdapter : Type := { max_retries : option Retry }.

Record Session : Type := {
  session_headers : Headers;
  max_redirects : option Z;
  adapters : dict string HTTPAdapter;
}.

Definition Session_mount (prefix : string) (adapter : HTTPAdapter)
    (s : Session) : Session :=
  {| session_headers := session_headers s; max_redirects := max_redirects s;
     adapters := dict_set prefix adapter (adapters s) |}.

Record UserAgent : Type := {
  ua_session : Session;
  ua_timeout : option Z;
  ua_max_size : option Z;
  ua_timing : option (list Z);
}.

Definition DEFAULT_MAX_SIZE : Z := 10 * 1024 * 1024.
Definition DEFAULT_MAX_REDIRECT : Z := 15.
Definition DEFAULT_TIMEOUT : Z := 20.

Definition DETERMINED_HTTP_CODES : list Z :=
  [ HTTPStatus_value REQUEST_TIMEOUT;
    HTTPStatus_value INTERNAL_SERVER_ERROR;
    HTTPStatus_value BAD_GATEWAY;
    HTTPStatus_value SERVICE_UNAVAILABLE;
    HTTPStatus_value GATEWAY_TIMEOUT;
    HTTPStatus_value TOO_MANY_REQUESTS ].

(** What the transport answers to [session.send]. *)
Inductive SendOutcome : Type :=
  | SendOk (r : RequestsResponse)
  | SendTooManyRedirects (r : option RequestsResponse) (msg : string)
  | SendTimeout (msg : string)
  | SendException (msg : string).

(** ** External collaborators

    Helpers of [mediawords.util.url] and
    [mediawords.util.web.ua.html_redirects], Python's [re] and the
    [requests] transport: everything [useragent.py] imports and calls but
    does not define. [re_search p s i] is [re.search(p, s)] being a match,
    with [re.IGNORECASE | re.UNICODE] when [i] is [true]. *)

Record Env : Type := {
  config : Config;
  fix_common_url_mistakes : string -> string;
  is_http_url : string -> bool;
  get_url_distinctive_domain : string -> string;
  get_url_host : string -> string;
  get_base_url : string -> string;
  (* [furl(url)] with [username] and [password] assigned, then [.url] *)
  furl_with_credentials : string -> string -> string -> string;
  re_search : string -> string -> bool -> bool;
  re_escape : string -> string;
  sql_now : string;
  (* [session.prepare_request(requests.Request(...))]; [None] when it raises *)
  prepare_request :
    Session -> string -> string -> option string -> Headers ->
    option (string * string) -> option PreparedRequest;
  (* [session.send(request, timeout, stream=True)] *)
  session_send : Session -> PreparedRequest -> option Z -> SendOutcome;
  (* [Response.is_success()] and [Response.decoded_content()] *)
  is_success : Response -> bool;
  decoded_content : Response -> string;
  target_request_from_meta_refresh_url : string -> string -> option Request;
  target_request_from_archive_org_url : string -> string -> option Request;
  target_request_from_archive_is_url : string -> string -> option Request;
  target_request_from_linkis_com_url : string -> string -> option Request;
  target_request_from_alarabiya_url : string -> string -> option Request;
}.

(** ** Mutable state

    [heap] holds the [Request] objects, addressed by reference, so that a
    mutation through one reference is seen through every alias.
    [http_request_log] is the audit log file, [network] the requests handed
    to the transport so far (oldest first). *)

Definition ref := nat.

Record State : Type := {
  heap : gmap ref Request;
  http_request_log : list string;
  network : list PreparedRequest;
}.

Definition State_empty : State :=
  {| heap := ∅; http_request_log := []; network := [] |}.

Definition M (A : Type) : Type := State -> result A * State.

#[global] Instance M_ret : MRet M := fun _ a st => (Ok a, st).
#[global] Instance M_bind : MBind M := fun _ _ f m st =>
  match m st with
  | (Ok a, st') => f a st'
  | (Raise e, st') => (Raise e, st')
  end.

Definition raise {A} (e : exn) : M A := fun st => (Raise e, st).

Definition lift {A} (r : result A) : M A := fun st => (r, st).

(** A new object gets a reference no live object has. *)
Definition alloc (rq : Request) : M ref := fun st =>
  let r := fresh (dom (heap st)) in
  (Ok r, {| heap := <[r := rq]> (heap st);
            http_request_log := http_request_log st;
            network := network st |}).

(** Dereferencing; a reference held by the program is always live, the
    [TypeError] branch is never taken from a state that contains it. *)
Definition load (r : ref) : M Request := fun st =>
  match heap st !! r with
  | Some rq => (Ok rq, st)
  | None => (Raise TypeError, st)
  end.

Definition store (r : ref) (rq : Request) : M unit := fun st =>
  (Ok tt, {| heap := <[r := rq]> (heap st);
             http_request_log := http_request_log st;
             network := network st |}).

Definition log_write (line : string) : M unit := fun st =>
  (Ok tt, {| heap := heap st;
             http_request_log := http_request_log st ++ [line];
             network := network st |}).

Definition transport_send (E : Env) (s : Session) (p : PreparedRequest)
    (timeout : option Z) : M SendOutcome := fun st =>
  (Ok (session_send E s p timeout),
   {| heap := heap st; http_request_log := http_request_log st;
      network := network st ++ [p] |}).

(** ** UserAgent: accessors and setters *)

Definition Session_new : Session :=
  {| session_headers := [];
     max_redirects := Some 30;
     adapters := [("https://", {| max_retries := None |});
                  ("http://", {| max_retries := None |})] |}.

Definition timing (ua : UserAgent) : option (list Z) := ua_timing ua.
Definition timeout (ua : UserAgent) : option Z := ua_timeout ua.
Definition max_size (ua : UserAgent) : option Z := ua_max_size ua.
Definition max_redirect (ua : UserAgent) : option Z :=
  max_redirects (ua_session ua).

(** The argument of [set_timing]: [None], a list, or anything else. *)
Inductive TimingArg : Type :=
  | TimingNone
  | TimingList (l : list Z)
  | TimingNotAList.

Definition http_prefixes : list string := ["http://"; "https://"].

Definition mount_all (adapter : HTTPAdapter) (s : Session) : Session :=
  foldl (fun s' http_prefix => Session_mount http_prefix adapter s')
        s http_prefixes.

Definition set_timing (ua : UserAgent) (arg : TimingArg) : result UserAgent :=
  timing_ ← match arg with
            | TimingNone => Ok None
            | TimingNotAList =>
                Raise (McUserAgentException
                         "Timing must be a list of integer seconds.")
            | TimingList l => if len l =? 0 then Ok None else Ok (Some l)
            end;
  match timing_ with
  | None =>
      (* Disable retries *)
      Ok {| ua_session := mount_all {| max_retries := None |} (ua_session ua);
            ua_timeout := ua_timeout ua; ua_max_size := ua_max_size ua;
            ua_timing := None |}
  | Some l =>
      (* Enable retries *)
      backoff ← (if len l =? 1 then py_index l 0
                 else t1 ← py_index l 1; t0 ← py_index l 0; Ok (t1 - t0));
      let retries := {| total := len l; backoff_factor := backoff;
                        status_forcelist := DETERMINED_HTTP_CODES |} in
      Ok {| ua_session :=
              mount_all {| max_retries := Some retries |} (ua_session ua);
            ua_timeout := ua_timeout ua; ua_max_size := ua_max_size ua;
            ua_timing := Some l |}
  end.

Definition set_timeout (ua : UserAgent) (timeout_ : option Z) : result UserAgent :=
  match timeout_ with
  | Some t =>
      if t <=? 0 then Raise (McUserAgentException "Timeout is zero or negative.")
      else Ok {| ua_session := ua_session ua; ua_timeout := Some t;
                 ua_max_size := ua_max_size ua; ua_timing := ua_timing ua |}
  | None => Ok {| ua_session := ua_session ua; ua_timeout := None;
                  ua_max_size := ua_max_size ua; ua_timing := ua_timing ua |}
  end.

Definition set_max_redirect (ua : UserAgent) (max_redirect_ : option Z)
    : result UserAgent :=
  let assign :=
    {| ua_session :=
         {| session_headers := session_headers (ua_session ua);
            max_redirects := max_redirect_;
            adapters := adapters (ua_session ua) |};
       ua_timeout := ua_timeout ua; ua_max_size := ua_max_size ua;
       ua_timing := ua_timing ua |} in
  match max_redirect_ with
  | Some n =>
      if n <? 0 then Raise (McUserAgentException "Max. redirect count is negative.")
      else Ok assign
  | None => Ok assign
  end.

Definition set_max_size (ua : UserAgent) (max_size_ : option Z) : result UserAgent :=
  match max_size_ with
  | Some n =>
      if n <=? 0 then Raise (McUserAgentException "Max. size is zero or negative.")
      else Ok {| ua_session := ua_session ua; ua_timeout := ua_timeout ua;
                 ua_max_size := Some n; ua_timing := ua_timing ua |}
  | None => Ok {| ua_session := ua_session ua; ua_timeout := ua_timeout ua;
                  ua_max_size := None; ua_timing := ua_timing ua |}
  end.

(** [config['mediawords'][key]]. *)
Definition config_item {A} (key : string) (value : option A) : result A :=
  match value with
  | Some v => Ok v
  | None => Raise (KeyError key)
  end.

(** [UserAgent()]. The session starts with the three headers the
    constructor sets; the transport's own default headers are left out. *)
Definition UserAgent_new (E : Env) : result UserAgent :=
  owner_ ← config_item "owner" (owner (config E));
  user_agent_ ← config_item "user_agent" (user_agent (config E));
  let session :=
    {| session_headers :=
         dict_set "Accept-Charset" "utf-8"
           (dict_set "User-Agent" user_agent_
              (dict_set "From" owner_
                 (session_headers Session_new)));
       max_redirects := max_redirects Session_new;
       adapters := adapters Session_new |} in
  let ua := {| ua_session := session; ua_timeout := None;
               ua_max_size := None; ua_timing := None |} in
  ua ← set_max_redirect ua (Some DEFAULT_MAX_REDIRECT);
  ua ← set_timeout ua (Some DEFAULT_TIMEOUT);
  ua ← set_max_size ua (Some DEFAULT_MAX_SIZE);
  set_timing ua TimingNone.

(** ** HTTP authentication lookup *)

Definition dquote : string := String "034"%char EmptyString.

Section useragent.
Variable E : Env.

(** [__get_domain_http_auth_lookup]. *)
Fixpoint auth_lookup_loop (domains : list AuthDomain)
    (domain_http_auth_lookup : dict string AuthDomain)
    : result (dict string AuthDomain) :=
  match domains with
  | [] => Ok domain_http_auth_lookup
  | domain :: rest =>
      match ad_domain domain, ad_user domain, ad_password domain with
      | None, _, _ =>
          Raise (McCrawlerAuthenticatedDomainsException
                   (dquote +:+ "domain" +:+ dquote
                     +:+ " is not present in HTTP auth configuration."))
      | Some _, None, _ =>
          Raise (McCrawlerAuthenticatedDomainsException
                   (dquote +:+ "user" +:+ dquote
                     +:+ " is not present in HTTP auth configuration."))
      | Some _, Some _, None =>
          Raise (McCrawlerAuthenticatedDomainsException
                   (dquote +:+ "password" +:+ dquote
                     +:+ " is not present in HTTP auth configuration."))
      | Some d, Some _, Some _ =>
          auth_lookup_loop rest
            (dict_set (str_lower d) domain domain_http_auth_lookup)
      end
  end.

Definition get_domain_http_auth_lookup : result (dict string AuthDomain) :=
  match crawler_authenticated_domains (config E) with
  | Some domains => auth_lookup_loop domains []
  | None => Ok []
  end.

(** [__url_with_http_auth]. *)
Definition url_with_http_auth (url : string) : result string :=
  auth_lookup ← get_domain_http_auth_lookup;
  let domain := str_lower (get_url_distinctive_domain E url) in
  match dict_get domain auth_lookup with
  | Some auth =>
      Ok (furl_with_credentials E url
            (default EmptyString (ad_user auth))
            (default EmptyString (ad_password auth)))
  | None => Ok url
  end.

(** ** The single-request executor *)

Definition BLACKLISTED_PREFIX : string := "http://blacklistedsite.localhost/".

(** [__blacklist_request_if_needed]: the request object is updated in place
    and the same reference is returned. *)
Definition blacklist_request_if_needed (request : option ref) : M ref :=
  match request with
  | None => raise (McRequestException "Request is None.")
  | Some request =>
      rq ← load request;
      match rq_url rq with
      | None => raise (McRequestException "URL is None.")
      | Some url =>
          if len_str url =? 0 then raise (McRequestException "URL is empty.")
          else
            match blacklist_url_pattern (config E) with
            | Some blacklist_url_pattern_ =>
                if (0 <? len_str blacklist_url_pattern_)
                   && re_search E blacklist_url_pattern_ url true
                then
                  store request
                    (Request_set_url rq (BLACKLISTED_PREFIX +:+ url));;
                  mret request
                else mret request
            | None => mret request
            end
      end
  end.

Definition newline : string := String "010"%char EmptyString.

(** [__log_request]: one line ["<timestamp> <url>\n"] appended to the
    audit log. Taking the file lock and file-system failures are outside
    the model: the lock is granted at once and the write succeeds. *)
Definition log_request (request : option ref) : M unit :=
  match request with
  | None => raise (McRequestException "Request is None.")
  | Some request =>
      rq ← load request;
      match rq_url rq with
      | None => raise (McRequestException "URL is None.")
      | Some url =>
          if len_str url =? 0 then raise (McRequestException "URL is empty.")
          else log_write (sql_now E +:+ " " +:+ url +:+ newline)
      end
  end.

(** The body accumulation loop of [request()]. Returns the accumulated
    data, its size, and the part of the stream that was not read.
    [response_data += chunk] raises [TypeError] when the chunk is [bytes],
    and an exception of the iterator is not caught. *)
Fixpoint read_body (max_size_ : option Z) (stream : Stream)
    (response_data : string) (response_data_size : Z)
    : result (string * Z * Stream) :=
  match stream with
  | StopIteration => Ok (response_data, response_data_size, StopIteration)
  | StreamRaises e => Raise e
  | Yield (Bytes _) _ => Raise TypeError
  | Yield (Text chunk) rest =>
      let response_data := response_data +:+ chunk in
      let response_data_size := response_data_size + len_chars chunk in
      match max_size_ with
      | Some m =>
          if m <? response_data_size
          then Ok (response_data, response_data_size, rest)
          else read_body max_size_ rest response_data response_data_size
      | None => read_body max_size_ rest response_data response_data_size
      end
  end.

(** The [previous] chain built from [reversed(requests_response.history)]. *)
Fixpoint build_previous (hops : list RequestsResponse) : option Response :=
  match hops with
  | [] => None
  | previous_rq_response :: rest =>
      let previous_response_request :=
        Request_from_requests_prepared_request
          (rr_request previous_rq_response) in
      let previous_response :=
        Response_set_request
          (Response_from_requests_response previous_rq_response None)
          previous_response_request in
      Some (Response_set_previous previous_response (build_previous rest))
  end.

Definition check_auth (auth_username auth_password : option string)
    : result (option (string * string)) :=
  match auth_username, auth_password with
  | None, Some _ | Some _, None =>
      Raise (McRequestException
        "Either both or none of HTTP authentication credentials must be not None.")
  | None, None => Ok None
  | Some u, Some p =>
      if ((len_str u =? 0) && (0 <? len_str p))
         || ((0 <? len_str u) && (len_str p =? 0))
      then Raise (McRequestException
        "Either both or none of HTTP authentication credentials must be not Empty.")
      else Ok (Some (u, p))
  end.

(** What the [try] around [session.send] leaves behind:
    [requests_response], [response_data] and [error_is_client_side]. The
    body is read in the [else] suite of the [try], where no [except]
    clause applies: what the loop raises leaves [request()]. *)
Definition handle_outcome (ua : UserAgent)
    (requests_prepared_request : PreparedRequest) (outcome : SendOutcome)
    : result (option RequestsResponse * string * bool) :=
  match outcome with
  | SendTooManyRedirects ex_response ex_str =>
      Ok (ex_response, ex_str, false)
  | SendTimeout ex_str =>
      Ok (Some (RequestsResponse_new
                  (HTTPStatus_value REQUEST_TIMEOUT)
                  (HTTPStatus_phrase REQUEST_TIMEOUT)
                  requests_prepared_request []),
          ex_str, true)
  | SendException ex_str =>
      Ok (Some (RequestsResponse_new
                  (HTTPStatus_value BAD_REQUEST)
                  "Client-side error"
                  requests_prepared_request
                  [("Client-Warning", "Client-side error")]),
          ex_str, true)
  | SendOk requests_response =>
      match read_body (max_size ua) (iter_content requests_response)
              EmptyString 0 with
      | Ok (response_data, _, _) =>
          Ok (Some requests_response, response_data, false)
      | Raise e => Raise e
      end
  end.

(** The rest of [request()] after the [try]: the [Response] with its
    [previous] chain and request. *)
Definition response_of_outcome (ua : UserAgent)
    (requests_prepared_request : PreparedRequest) (outcome : SendOutcome)
    : result Response :=
  match handle_outcome ua requests_prepared_request outcome with
  | Raise e => Raise e
  | Ok (None, _, _) =>
      Raise (McRequestException "Response from 'requests' is None.")
  | Ok (Some requests_response, response_data, error_is_client_side_) =>
      let response :=
        Response_from_requests_response requests_response
          (Some response_data) in
      let response :=
        if error_is_client_side_
        then Response_set_error_is_client_side response true
        else response in
      (* Build the previous request / response chain from the redirects *)
      let response :=
        Response_set_previous response
          (build_previous (reverse (history requests_response))) in
      let response_request :=
        Request_from_requests_prepared_request
          (rr_request requests_response) in
      Ok (Response_set_request response response_request)
  end.

(** [request()]. The formatted details of the "Unable to prepare request"
    message are left out. *)
Definition request (ua : UserAgent) (request_ : option ref) : M Response :=
  match request_ with
  | None => raise (McRequestException "Request is None.")
  | Some _ =>
      request_ ← blacklist_request_if_needed request_;
      log_request (Some request_);;
      rq ← load request_;
      match rq_method rq, rq_url rq, rq_headers rq with
      | None, _, _ => raise (McRequestException "Request's method is None.")
      | Some _, None, _ => raise (McRequestException "Request's URL is None.")
      | Some _, Some _, None =>
          raise (McRequestException "Request's headers is None.")
      | Some method, Some url, Some headers_ =>
          auth ← lift (check_auth (rq_auth_username rq) (rq_auth_password rq));
          let data := rq_content rq in
          match prepare_request E (ua_session ua) method url data headers_ auth with
          | None => raise (McRequestException "Unable to prepare request")
          | Some requests_prepared_request =>
              outcome ← transport_send E (ua_session ua)
                          requests_prepared_request (timeout ua);
              lift (response_of_outcome ua requests_prepared_request outcome)
          end
      end
  end.

(** [get()]. *)
Definition get (ua : UserAgent) (url : option string) : M Response :=
  match url with
  | None => raise (McGetException "URL is None.")
  | Some url =>
      let url := fix_common_url_mistakes E url in
      if negb (is_http_url E url)
      then raise (McGetException ("URL is not HTTP(s): " +:+ url))
      else
        url ← lift (url_with_http_auth url);
        request_ ← alloc (Request_new "GET" url);
        request ua (Some request_)
  end.

(** ** [urllib.parse.quote]

    [quote(s)] with the default [safe='/']: letters, digits and [_.-~/]
    stand for themselves, every other byte becomes [%XX] in upper-case
    hexadecimal. *)

Definition quote_always_safe (c : ascii) : bool :=
  let n := nat_of_ascii c in
  ((65 <=? n)%nat && (n <=? 90)%nat)
  || ((97 <=? n)%nat && (n <=? 122)%nat)
  || ((48 <=? n)%nat && (n <=? 57)%nat)
  || Ascii.eqb c "_" || Ascii.eqb c "." || Ascii.eqb c "-" || Ascii.eqb c "~"
  || Ascii.eqb c "/".

Definition hex_digit (n : nat) : ascii :=
  if (n <? 10)%nat then ascii_of_nat (48 + n) else ascii_of_nat (55 + n).

Fixpoint quote (s : string) : string :=
  match s with
  | EmptyString => EmptyString
  | String c s' =>
      if quote_always_safe c then String c (quote s')
      else
        let n := nat_of_ascii c in
        String "%" (String (hex_digit (n / 16)) (String (hex_digit (n mod 16))
                                                   (quote s')))
  end.

(** ** The redirect resolver *)

Definition html_redirect_functions
    : list (string -> string -> option Request) :=
  [ target_request_from_meta_refresh_url E;
    target_request_from_archive_org_url E;
    target_request_from_archive_is_url E;
    target_request_from_linkis_com_url E;
    target_request_from_alarabiya_url E ].

(** The loop that looks for the initial response of a freshly fetched
    chain: [fuel] iterations are left, [depth] counts the steps taken from
    the head. Returns the final [previous] and the depth of the final
    [redirect_response]. *)
Fixpoint find_initial (fuel : nat) (redirect_response : Response)
    (previous_ : option Response) (depth : nat) : option Response * nat :=
  match fuel with
  | O => (previous_, depth)
  | S fuel' =>
      match previous redirect_response with
      | None => (None, depth)
      | Some p => find_initial fuel' p (Some p) (S depth)
      end
  end.

(** [set_previous] on the response [depth] links below the head. *)
Fixpoint set_previous_at (depth : nat) (r : Response) (p : Response) : Response :=
  match depth with
  | O => Response_set_previous r (Some p)
  | S d =>
      match previous r with
      | Some q => Response_set_previous r (Some (set_previous_at d q p))
      | None => r
      end
  end.

(** The inner loop of [__inner_redirects_exhausted] over
    [urls_redirected_to]. *)
Definition url_embedded (encoded_url_redirected_to : string)
    (urls_redirected_to : list string) : bool :=
  existsb (fun redir_url =>
             re_search E (re_escape E encoded_url_redirected_to) redir_url true)
          urls_redirected_to.

(** The outer loop of [__inner_redirects_exhausted]: [fuel] iterations of
    [range(max_redirect + 1)] are left. [response_] is the same object in
    every iteration: the loop body never reassigns it. *)
Fixpoint redirects_exhausted_loop (fuel : nat) (response_ : Response)
    (urls_redirected_to : list string) : result (option Response) :=
  match fuel with
  | O => Ok None
  | S fuel' =>
      match previous response_ with
      | None => Ok None
      | Some previous_ =>
          match rq_url (request_of previous_) with
          | None => Raise TypeError
          | Some url_redirected_to =>
              let encoded_url_redirected_to := quote url_redirected_to in
              if url_embedded encoded_url_redirected_to urls_redirected_to
              then Ok (Some previous_)
              else redirects_exhausted_loop fuel' response_
                     (urls_redirected_to ++ [url_redirected_to])
          end
      end
  end.

Definition inner_redirects_exhausted (max_redirect_ : Z) (response_ : Response)
    : result (option Response) :=
  redirects_exhausted_loop (Z.to_nat (max_redirect_ + 1)) response_ [].

(** The loop of [__inner_follow_redirects] over the HTML redirect
    functions. [inner_next] is the recursive call [__inner(...)] with
    [meta_redirects_left - 1]. *)
Fixpoint follow_redirect_functions (ua : UserAgent) (max_redirect_ : Z)
    (inner_next : Response -> M (option Response)) (response_ : Response)
    (base_url : string) (functions : list (string -> string -> option Request))
    : M (option Response) :=
  match functions with
  | [] => mret (Some response_)
  | html_redirect_function :: rest =>
      match html_redirect_function (decoded_content E response_) base_url with
      | Some request_after_meta_redirect =>
          if decide (rq_url (request_of response_)
                     <> rq_url request_after_meta_redirect)
          then
            rq ← alloc request_after_meta_redirect;
            orig_redirect_response ← request ua (Some rq);
            let '(previous_, depth) :=
              find_initial (Z.to_nat (max_redirect_ + 1))
                orig_redirect_response None O in
            match previous_ with
            | Some _ =>
                raise (McGetFollowHTTPHTMLRedirectsException
                         ("Can't find the initial redirected response; URL: "
                          +:+ default "None"
                                (rq_url request_after_meta_redirect)))
            | None =>
                inner_next
                  (set_previous_at depth orig_redirect_response response_)
            end
          else follow_redirect_functions ua max_redirect_ inner_next
                 response_ base_url rest
      | None =>
          follow_redirect_functions ua max_redirect_ inner_next
            response_ base_url rest
      end
  end.

Definition inner_follow_redirects (ua : UserAgent) (max_redirect_ : Z)
    (inner_next : Response -> M (option Response)) (response_ : Response)
    : M (option Response) :=
  if is_success E response_ then
    match rq_url (request_of response_) with
    | None => raise TypeError
    | Some url =>
        follow_redirect_functions ua max_redirect_ inner_next response_
          (get_base_url E url) html_redirect_functions
    end
  else mret None.

(** [__inner]: [meta_redirects_left] is the number of hops left; it is
    positive exactly when it is a successor. *)
Fixpoint inner (ua : UserAgent) (max_redirect_ : Z) (meta_redirects_left : nat)
    (response_ : Response) : M (option Response) :=
  match meta_redirects_left with
  | S left' =>
      inner_follow_redirects ua max_redirect_
        (inner ua max_redirect_ left') response_
  | O => lift (inner_redirects_exhausted max_redirect_ response_)
  end.

(** [get_follow_http_html_redirects()]. With [max_redirect()] unset the
    comparison [meta_redirects_left > 0] in [__inner] is a [TypeError]. *)
Definition get_follow_http_html_redirects (ua : UserAgent)
    (url : option string) : M Response :=
  match url with
  | None => raise (McGetFollowHTTPHTMLRedirectsException "URL is None.")
  | Some url =>
      let url := fix_common_url_mistakes E url in
      if negb (is_http_url E url)
      then raise (McGetFollowHTTPHTMLRedirectsException
                    ("URL is not HTTP(s): " +:+ url))
      else if decide (max_redirect ua = Some 0)
      then raise (McGetFollowHTTPHTMLRedirectsException
             "User agent's max_redirect is 0, subroutine might loop indefinitely.")
      else
        response ← get ua (Some url);
        match max_redirect ua with
        | None => raise TypeError
        | Some max_redirect_ =>
            response_after_redirects ←
              inner ua max_redirect_ (Z.to_nat max_redirect_) response;
            match response_after_redirects with
            | None => mret response
            | Some r => mret r
            end
        end
  end.

(** ** [parallel_get]: scheduling *)

Record ParallelGetScheduledURL : Type := {
  url : string;
  time : Z;
}.

(** [__get_url_domain]. *)
Definition get_url_domain (url_ : string) : result string :=
  if negb (is_http_url E url_) then Ok url_
  else
    let host := get_url_host E url_ in
    let name_parts := str_split "." host in
    let n := len name_parts - 1 in
    domain ←
      (* for country domains, use last three parts of name *)
      (if re_search E "\...$" host false then
         p2 ← py_index name_parts (n - 2);
         p1 ← py_index name_parts (n - 1);
         p0 ← py_index name_parts 0;
         Ok (str_join "." [p2; p1; p0])
       else if re_search E "(localhost|blogspot\.com|wordpress\.com)" host false
       then Ok url_
       else
         p1 ← py_index name_parts (n - 1);
         pn ← py_index name_parts n;
         Ok (str_join "." [p1; pn]));
    Ok (str_lower domain).

(** First loop of [__get_scheduled_urls]: bucket the URLs by domain. *)
Fixpoint bucket_urls (urls_ : list string) (domain_urls : dict string (list string))
    : result (dict string (list string)) :=
  match urls_ with
  | [] => Ok domain_urls
  | url_ :: rest =>
      domain ← get_url_domain url_;
      bucket_urls rest (dict_append domain url_ domain_urls)
  end.

(** Inner loop of the second loop: one bucket, [time_] is the running
    offset. *)
Fixpoint schedule_domain (per_domain_timeout_ : Z) (urls_in_domain : list string)
    (time_ : Z) : list ParallelGetScheduledURL :=
  match urls_in_domain with
  | [] => []
  | domain_url :: rest =>
      {| url := domain_url; time := time_ |}
      :: schedule_domain per_domain_timeout_ rest
           (if time_ mod 5 =? 0 then time_ + per_domain_timeout_ else time_)
  end.

(** Second loop: every bucket in the dictionary's order, each from 0. *)
Fixpoint schedule_domains (per_domain_timeout_ : Z)
    (domain_urls : dict string (list string)) : list ParallelGetScheduledURL :=
  match domain_urls with
  | [] => []
  | (_, urls_in_domain) :: rest =>
      schedule_domain per_domain_timeout_ urls_in_domain 0
      ++ schedule_domains per_domain_timeout_ rest
  end.

(** [sorted(scheduled_urls, key=lambda x: x.time)]: a stable sort. *)
Fixpoint insert_by_time (x : ParallelGetScheduledURL)
    (l : list ParallelGetScheduledURL) : list ParallelGetScheduledURL :=
  match l with
  | [] => [x]
  | y :: l' => if time x <=? time y then x :: y :: l'
               else y :: insert_by_time x l'
  end.

Definition sorted_by_time (l : list ParallelGetScheduledURL)
    : list ParallelGetScheduledURL :=
  foldr insert_by_time [] l.

(** [__get_scheduled_urls]. *)
Definition get_scheduled_urls (urls_ : list string) (per_domain_timeout_ : Z)
    : result (list ParallelGetScheduledURL) :=
  domain_urls ← bucket_urls urls_ [];
  Ok (sorted_by_time (schedule_domains per_domain_timeout_ domain_urls)).

(** ** [parallel_get]: partition across workers *)

(** [url_stack.pop()]: the rest of the list and its last element. *)
Definition pop {A} (l : list A) : option (list A * A) :=
  match reverse l with
  | [] => None
  | x :: r => Some (reverse r, x)
  end.

(** The loop [while len(url_stack) > 0] as a state machine on
    [(url_stack, url_blocks)]; [None] when [fuel] iterations do not reach
    the end. *)
Fixpoint url_blocks_while {A} (fuel : nat) (num_parallel : Z)
    (url_stack : list A) (url_blocks : dict Z (list A))
    : option (result (dict Z (list A))) :=
  if 0 <? len url_stack then
    match fuel with
    | O => None
    | S fuel' =>
        if num_parallel =? 0 then Some (Raise ZeroDivisionError)
        else
          let block_i := len url_stack mod num_parallel in
          match pop url_stack with
          | Some (url_stack', x) =>
              url_blocks_while fuel' num_parallel url_stack'
                (dict_append block_i x url_blocks)
          | None => Some (Raise IndexError)
          end
    end
  else Some (Ok url_blocks).

(** The same loop by recursion on the elements still to be popped, the
    next one first ([reverse url_stack]); their number is [len(url_stack)]. *)
Fixpoint url_blocks_loop {A} (num_parallel : Z) (to_pop : list A)
    (url_blocks : dict Z (list A)) : result (dict Z (list A)) :=
  match to_pop with
  | [] => Ok url_blocks
  | x :: rest =>
      if num_parallel =? 0 then Raise ZeroDivisionError
      else
        let block_i := len to_pop mod num_parallel in
        url_blocks_loop num_parallel rest (dict_append block_i x url_blocks)
  end.

Definition make_url_blocks {A} (num_parallel : Z) (url_stack : list A)
    : result (dict Z (list A)) :=
  url_blocks_loop num_parallel (reverse url_stack) [].

(** ** [parallel_get]: workers and collection *)

(** One request of a worker: a new [UserAgent], its timeout, and the
    redirect resolver. A worker process owns its objects; what it appends to
    the shared audit log is not tracked here. *)
Definition worker_get (timeout_ : option Z) (u : ParallelGetScheduledURL)
    : result Response :=
  ua ← UserAgent_new E;
  ua ← set_timeout ua timeout_;
  (get_follow_http_html_redirects ua (Some (url u)) State_empty).1.

(** [_parallel_get_web_store]; waiting for the scheduled offset is a
    matter of wall-clock time and is not modelled. *)
Fixpoint parallel_get_web_store (urls : list ParallelGetScheduledURL)
    (timeout_ : option Z) : result (list Response) :=
  match urls with
  | [] => Ok []
  | u :: rest =>
      response ← worker_get timeout_ u;
      responses ← parallel_get_web_store rest timeout_;
      Ok (response :: responses)
  end.

(** [all_responses = all_responses + result.get()] over the blocks in the
    dictionary's order; an exception of a worker is raised again by
    [result.get()]. *)
Fixpoint collect_results (blocks : dict Z (list ParallelGetScheduledURL))
    (timeout_ : option Z) (all_responses : list Response)
    : result (list Response) :=
  match blocks with
  | [] => Ok all_responses
  | (_, url_block) :: rest =>
      responses ← parallel_get_web_store url_block timeout_;
      collect_results rest timeout_ (all_responses ++ responses)
  end.

(** [multiprocessing.Pool(processes=n)]. *)
Definition Pool (processes : Z) : result unit :=
  if processes <? 1 then Raise (ValueError "Number of processes must be at least 1")
  else Ok tt.

(** [parallel_get()]. *)
Definition parallel_get (urls : option (list string)) : result (list Response) :=
  match urls with
  | None => Ok []
  | Some urls =>
      if len urls =? 0 then Ok []
      else
        match web_store_num_parallel (config E) with
        | None => Raise (McParallelGetException
                           (dquote +:+ "web_store_num_parallel" +:+ dquote
                            +:+ " is not set."))
        | Some num_parallel =>
        match web_store_timeout (config E) with
        | None => Raise (McParallelGetException
                           (dquote +:+ "web_store_timeout" +:+ dquote
                            +:+ " is not set."))
        | Some timeout_ =>
        match web_store_per_domain_timeout (config E) with
        | None => Raise (McParallelGetException
                           (dquote +:+ "web_store_per_domain_timeout" +:+ dquote
                            +:+ " is not set."))
        | Some per_domain_timeout =>
            url_stack ← get_scheduled_urls urls per_domain_timeout;
            url_blocks ← make_url_blocks num_parallel url_stack;
            Pool num_parallel;;
            collect_results url_blocks (Some timeout_) []
        end end end
  end.

(** [get_string()]. *)
Definition get_string (ua : UserAgent) (url_ : option string)
    : M (option string) :=
  response ← get ua url_;
  if is_success E response then mret (Some (decoded_content E response))
  else mret None.

End useragent.

(** ** A small world to run the code in

    Stand-ins for the collaborators, used only to evaluate the code on
    concrete inputs: URLs of the plain shape [scheme://host/path], a
    regular-expression engine that knows the two patterns of
    [__get_url_domain] and otherwise reads its pattern as (escaped) literal
    text, a transport given by a table from prepared requests to outcomes,
    and pages whose body [refresh:<url>] stands for an HTML meta refresh. *)

Fixpoint str_contains (p s : string) : bool :=
  String.prefix p s
  || match s with
     | EmptyString => false
     | String _ s' => str_contains p s'
     end.

Fixpoint str_after (p s : string) : option string :=
  if String.prefix p s then Some (String.substring (String.length p)
                                    (String.length s - String.length p) s)
  else match s with
       | EmptyString => None
       | String _ s' => str_after p s'
       end.

Fixpoint str_take_until (stop : ascii -> bool) (s : string) : string :=
  match s with
  | EmptyString => EmptyString
  | String c s' => if stop c then EmptyString
                   else String c (str_take_until stop s')
  end.

(** Modelled from the spec: [get_url_host] of [mediawords.util.url] is not
    part of this module; here, the text between [://] and the next of
    [/ ? # :]. *)
Definition test_get_url_host (u : string) : string :=
  match str_after "://" u with
  | Some r =>
      str_take_until (fun c => Ascii.eqb c "/" || Ascii.eqb c "?"
                               || Ascii.eqb c "#" || Ascii.eqb c ":") r
  | None => EmptyString
  end.

(** Modelled from the spec: [is_http_url] of [mediawords.util.url] is not
    part of this module; "scheme must be http/https", with a host. *)
Definition test_is_http_url (u : string) : bool :=
  (String.prefix "http://" (str_lower u) || String.prefix "https://" (str_lower u))
  && negb (String.eqb (test_get_url_host u) EmptyString).

Definition is_alnum (c : ascii) : bool :=
  let n := nat_of_ascii c in
  ((65 <=? n)%nat && (n <=? 90)%nat)
  || ((97 <=? n)%nat && (n <=? 122)%nat)
  || ((48 <=? n)%nat && (n <=? 57)%nat)
  || Ascii.eqb c "_".

(** [re.escape]: a backslash before every character that is not
    alphanumeric. *)
Fixpoint test_re_escape (s : string) : string :=
  match s with
  | EmptyString => EmptyString
  | String c s' =>
      if is_alnum c then String c (test_re_escape s')
      else String "\" (String c (test_re_escape s'))
  end.

(** The text a pattern without operators stands for. *)
Fixpoint re_literal (pat : string) : string :=
  match pat with
  | EmptyString => EmptyString
  | String c r =>
      if Ascii.eqb c "\" then
        match r with
        | String c' r' => String c' (re_literal r')
        | EmptyString => EmptyString
        end
      else String c (re_literal r)
  end.

(** A dot and two more characters at the end of [s]. *)
Definition ends_with_dot_two (s : string) : bool :=
  let n := String.length s in
  (3 <=? n)%nat
  && match String.get (n - 3) s with
     | Some c => Ascii.eqb c "."
     | None => false
     end.

Definition test_re_search (pattern s : string) (ignorecase : bool) : bool :=
  if String.eqb pattern "\...$" then ends_with_dot_two s
  else if String.eqb pattern "(localhost|blogspot\.com|wordpress\.com)"
  then str_contains "localhost" s || str_contains "blogspot.com" s
       || str_contains "wordpress.com" s
  else
    let lit := re_literal pattern in
    if ignorecase then str_contains (str_lower lit) (str_lower s)
    else str_contains lit s.

(** Modelled from the spec: [target_request_from_meta_refresh_url] of
    [mediawords.util.web.ua.html_redirects] is not part of this module; here
    a body [refresh:<url>] stands for a page with a meta refresh to [<url>]. *)
Definition test_meta_refresh (content_ base_url : string) : option Request :=
  if String.prefix "refresh:" content_
  then Some (Request_new "GET"
               (String.substring 8 (String.length content_ - 8) content_))
  else None.

Definition test_config : Config :=
  {| owner := Some "owner@example.com";
     user_agent := Some "mediawords bot";
     crawler_authenticated_domains := None;
     blacklist_url_pattern := Some "blacklisted";
     web_store_num_parallel := Some 2;
     web_store_timeout := Some 20;
     web_store_per_domain_timeout := Some 1;
     data_dir := "data" |}.

Definition test_env (cfg : Config) (web : PreparedRequest -> SendOutcome) : Env :=
  {| config := cfg;
     fix_common_url_mistakes := fun u => u;
     is_http_url := test_is_http_url;
     get_url_distinctive_domain := test_get_url_host;
     get_url_host := test_get_url_host;
     get_base_url := fun u => u;
     furl_with_credentials := fun u _ _ => u;
     re_search := test_re_search;
     re_escape := test_re_escape;
     sql_now := "2018-01-01 00:00:00";
     prepare_request := fun s method url_ data headers_ _ =>
       Some {| pr_method := method; pr_url := url_;
               pr_headers := session_headers s ++ headers_; pr_body := data |};
     session_send := fun _ p _ => web p;
     is_success := fun r => (200 <=? code r) && (code r <? 300);
     decoded_content := fun r => default EmptyString (content r);
     target_request_from_meta_refresh_url := test_meta_refresh;
     target_request_from_archive_org_url := fun _ _ => None;
     target_request_from_archive_is_url := fun _ _ => None;
     target_request_from_linkis_com_url := fun _ _ => None;
     target_request_from_alarabiya_url := fun _ _ => None |}.

(** A page answered with status 200 and the given body chunks. *)
Definition page (p : PreparedRequest) (chunks : list string) : SendOutcome :=
  SendOk (mkRequestsResponse 200 "OK" [] p [] (yields chunks StopIteration)).

(** A server that answers every request with the page [hello]. *)
Definition web_hello (p : PreparedRequest) : SendOutcome := page p ["hello"].

(** A server that never answers in time. *)
Definition web_timeout (p : PreparedRequest) : SendOutcome :=
  SendTimeout "Read timed out.".

(** A host that cannot be reached. *)
Definition web_unreachable (p : PreparedRequest) : SendOutcome :=
  SendException "Connection refused".

(** A body that arrives in three chunks of four characters. *)
Definition web_chunks (p : PreparedRequest) : SendOutcome :=
  page p ["aaaa"; "bbbb"; "cccc"].

(** A body of two chunks, the first of three accented letters (six bytes
    of UTF-8). *)
Definition e_acute : string := String "195" (String "169" EmptyString).

Definition web_accents (p : PreparedRequest) : SendOutcome :=
  page p [e_acute +:+ e_acute +:+ e_acute; "x"].



(** A story behind a paywall: the story's URL answers 301 to the paywall,
    whose URL embeds the story's URL, URL-encoded; the paywall page
    refreshes to a login page. *)
Definition story_url : string := "http://news.example/story".
Definition paywall_url : string :=
  "http://paywall.example/?u=http%3A//news.example/story".
Definition login_url : string := "http://paywall.example/login".

Definition with_url (p : PreparedRequest) (u : string) : PreparedRequest :=
  {| pr_method := pr_method p; pr_url := u; pr_headers := pr_headers p;
     pr_body := pr_body p |}.

Definition web_paywall (p : PreparedRequest) : SendOutcome :=
  if String.eqb (pr_url p) story_url then
    SendOk (mkRequestsResponse 200 "OK" [] (with_url p paywall_url)
              [mkRequestsResponse 301 "Moved Permanently"
                 [("Location", paywall_url)] p [] StopIteration]
              (yields ["refresh:" +:+ login_url] StopIteration))
  else page p ["<html>please log in</html>"].

Definition paywall_env : Env := test_env test_config web_paywall.

(** The three responses of that story: the 301 of the story's URL, the
    paywall page reached through it, and the login page the paywall page
    refreshes to, linked to the paywall page by the resolver. *)
Definition test_request (u : string) : Request :=
  {| rq_method := Some "GET"; rq_url := Some u;
     rq_headers := Some [("From", "owner@example.com");
                         ("User-Agent", "mediawords bot");
                         ("Accept-Charset", "utf-8")];
     rq_content := None; rq_auth_username := None;
     rq_auth_password := None |}.

Definition story_response : Response :=
  mkResponse 301 "Moved Permanently" [("Location", paywall_url)] None false
             (test_request story_url) None.

Definition paywall_response : Response :=
  mkResponse 200 "OK" [] (Some ("refresh:" +:+ login_url)) false
             (test_request paywall_url) (Some story_response).

Definition login_response : Response :=
  mkResponse 200 "OK" [] (Some "<html>please log in</html>") false
             (test_request login_url) (Some paywall_response).

(** A response whose only prior hop has a URL that [quote] leaves as it
    is. *)
Definition plain_response : Response :=
  mkResponse 200 "OK" [] None false (test_request "plain") None.

Definition self_matching_response : Response :=
  mkResponse 200 "OK" [] (Some "page") false (test_request login_url)
             (Some plain_response).

(** A state in which object 0 is the request [GET u]. *)
Definition state_with_request (u : string) : State :=
  {| heap := {[ 0%nat := Request_new "GET" u ]};
     http_request_log := []; network := [] |}.

(** [UserAgent()] in the test world, and the same object after
    [set_max_redirect(n)]. *)
Definition test_ua_with (max_redirect_ : option Z) : UserAgent :=
  {| ua_session :=
       {| session_headers := [("From", "owner@example.com");
                              ("User-Agent", "mediawords bot");
                              ("Accept-Charset", "utf-8")];
          max_redirects := max_redirect_;
          adapters := [("https://", {| max_retries := None |});
                       ("http://", {| max_retries := None |})] |};
     ua_timeout := Some 20;
     ua_max_size := Some 10485760;
     ua_timing := None |}.

Definition test_ua : UserAgent := test_ua_with (Some DEFAULT_MAX_REDIRECT).

(** What [GET u] is prepared as with that object's session. *)
Definition pr_of_request (ua : UserAgent) (u : string) : PreparedRequest :=
  {| pr_method := "GET"; pr_url := u;
     pr_headers := session_headers (ua_session ua); pr_body := None |}.

(** [set_max_size(5)] on it. *)
Definition test_ua_small : UserAgent :=
  {| ua_session := ua_session test_ua; ua_timeout := ua_timeout test_ua;
     ua_max_size := Some 5; ua_timing := ua_timing test_ua |}.

(** Seven URLs of one domain; three URLs of two domains; the same with a
    URL that is not HTTP(s) among them. *)
Definition seven_urls : list string :=
  ["http://a.com/1"; "http://a.com/2"; "http://a.com/3"; "http://a.com/4";
   "http://a.com/5"; "http://a.com/6"; "http://a.com/7"].
Definition three_urls : list string :=
  ["http://a.com/1"; "http://a.com/2"; "http://b.com/1"].
Definition mixed_urls : list string :=
  ["http://a.com/1"; "ftp://a.com/2"; "http://b.com/1"].

(** ** The claims' own words, for comparison with the code *)

(** Offsets within a bucket as "every 5th URL advances": the running
    offset advances after the URLs whose index in the bucket is divisible
    by 5. *)
Fixpoint schedule_domain_by_index (per_domain_timeout_ : Z)
    (urls_in_domain : list string) (index time_ : Z)
    : list ParallelGetScheduledURL :=
  match urls_in_domain with
  | [] => []
  | domain_url :: rest =>
      {| url := domain_url; time := time_ |}
      :: schedule_domain_by_index per_domain_timeout_ rest (index + 1)
           (if index mod 5 =? 0 then time_ + per_domain_timeout_ else time_)
  end.

(** One step of the running offset in [__get_scheduled_urls]. *)
Definition advance (per_domain_timeout_ : Z) (time_ : Z) : Z :=
  if time_ mod 5 =? 0 then time_ + per_domain_timeout_ else time_.

(** What the code computes, in closed form: the offset of the URL at
    position [i] of its bucket. *)
Definition offset_at (per_domain_timeout_ : Z) (i : nat) : Z :=
  if per_domain_timeout_ mod 5 =? 0 then Z.of_nat i * per_domain_timeout_
  else match i with O => 0 | S _ => per_domain_timeout_ end.





(** The request's URL matches the configured blacklist pattern. *)
Definition blacklisted (E : Env) (u : string) : bool :=
  match blacklist_url_pattern (config E) with
  | Some pattern => (0 <? len_str pattern) && re_search E pattern u true
  | None => false
  end.

(** The paywall heuristic as a walk down the [previous] chain: [hops] are
    the prior hops, nearest first, [scanned] the URLs of the hops already
    passed. *)
Fixpoint paywall_walk (E : Env) (hops : list Response) (scanned : list string)
    : option Response :=
  match hops with
  | [] => None
  | hop :: rest =>
      match rq_url (request_of hop) with
      | None => None
      | Some u =>
          if url_embedded E (quote u) scanned then Some hop
          else paywall_walk E rest (scanned ++ [u])
      end
  end.

(** Text chunks put together, and the total size of the first [k] chunks,
    in characters. *)
Definition str_concat (chunks : list string) : string :=
  foldr String.append EmptyString chunks.

Definition size_of_first (k : nat) (chunks : list string) : Z :=
  len_chars (str_concat (take k chunks)).


(** ** Notions used to state further properties *)

#[global] Instance exn_eq_dec : EqDecision exn.
Proof. solve_decision. Defined.

#[global] Instance result_eq_dec {A} `{EqDecision A} : EqDecision (result A).
Proof. solve_decision. Defined.

(** An entry of [crawler_authenticated_domains] with its three keys, and
    the key under which the lookup files it. *)
Definition auth_entry_complete (d : AuthDomain) : Prop :=
  is_Some (ad_domain d) /\ is_Some (ad_user d) /\ is_Some (ad_password d).

Definition auth_key (d : AuthDomain) : string :=
  str_lower (default EmptyString (ad_domain d)).


(** [self.request(request=request_after_meta_redirect)] on the request
    object a redirect function has just made. *)
Definition fetch_request (E : Env) (ua : UserAgent) (rq : Request) : M Response :=
  r ← alloc rq; request E ua (Some r).

(** An HTML redirect function that does not fire on [response_]: it finds
    nothing, or a request for the URL the response already has. *)
Definition does_not_fire (E : Env) (response_ : Response) (base_url : string)
    (f : string -> string -> option Request) : Prop :=
  match f (decoded_content E response_) base_url with
  | None => True
  | Some rq => rq_url rq = rq_url (request_of response_)
  end.

(** From [st] to [st'] at most [k] lines were appended to the audit log,
    no more requests were handed to the transport than lines were logged,
    nothing was taken back, and the objects of [st] other than [but] are
    as they were. *)
Definition extends (k : nat) (but : option ref) (st st' : State) : Prop :=
  exists sent lines,
    network st' = network st ++ sent
    /\ http_request_log st' = http_request_log st ++ lines
    /\ (length sent <= length lines <= k)%nat
    /\ forall r rq, Some r <> but -> heap st !! r = Some rq ->
                    heap st' !! r = Some rq.


(** Two responses that agree on everything but their [previous] link. *)
Definition same_hop (a b : Response) : Prop :=
  code a = code b /\ message a = message b /\ headers a = headers b
  /\ content a = content b
  /\ error_is_client_side a = error_is_client_side b
  /\ request_of a = request_of b.

(** The nearest prior hop's URL contains its own URL-encoding. *)
Definition embeds_own_encoding (E : Env) (u : string) : bool :=
  re_search E (re_escape E (quote u)) u true.

(** A host label: text without a dot. *)
Fixpoint no_dot (s : string) : bool :=
  match s with
  | EmptyString => true
  | String c s' => negb (Ascii.eqb c ".") && no_dot s'
  end.

(** ** More of the test world *)

(** A server that redirects for ever: the transport gives up with the last
    302 in hand. *)
Definition web_loop (p : PreparedRequest) : SendOutcome :=
  SendTooManyRedirects
    (Some (mkRequestsResponse 302 "Found" [("Location", pr_url p)] p []
             StopIteration))
    "Exceeded 15 redirects.".

(** The test configuration without the [owner] key. *)
Definition test_config_no_owner : Config :=
  {| owner := None;
     user_agent := user_agent test_config;
     crawler_authenticated_domains := crawler_authenticated_domains test_config;
     blacklist_url_pattern := blacklist_url_pattern test_config;
     web_store_num_parallel := web_store_num_parallel test_config;
     web_store_timeout := web_store_timeout test_config;
     web_store_per_domain_timeout := web_store_per_domain_timeout test_config;
     data_dir := data_dir test_config |}.

(** The test configuration with another worker count. *)
Definition test_config_workers (num_parallel : Z) : Config :=
  {| owner := owner test_config;
     user_agent := user_agent test_config;
     crawler_authenticated_domains := crawler_authenticated_domains test_config;
     blacklist_url_pattern := blacklist_url_pattern test_config;
     web_store_num_parallel := Some num_parallel;
     web_store_timeout := web_store_timeout test_config;
     web_store_per_domain_timeout := web_store_per_domain_timeout test_config;
     data_dir := data_dir test_config |}.

(** * Properties *)


(** ** Dictionaries *)

Section dict_facts.
Context {K A : Type} `{EqDecision K}.
Implicit Types (k : K) (d : dict K (list A)).

Lemma dict_append_nil k (x : A) : dict_append k x [] = [(k, [x])].
Proof.
  unfold dict_append, dict_contains. simpl.
  repeat (case_decide; simpl); done.
Qed.

Lemma dict_append_cons k k' (x : A) (v : list A) d :
  dict_append k x ((k', v) :: d)
  = if decide (k = k') then (k', v ++ [x]) :: d
    else (k', v) :: dict_append k x d.
Proof.
  unfold dict_append, dict_contains. simpl.
  destruct (decide (k = k')) as [->|Hne]; simpl.
  - repeat (case_decide; simpl); done.
  - destruct (dict_get k d) eqn:Hg; simpl.
    + repeat (case_decide; simpl); try done. by rewrite Hg.
    + repeat (case_decide; simpl); try done.
      destruct (dict_get k (dict_set k [] d)); done.
Qed.

Lemma dict_get_append_eq k (x : A) d :
  dict_get k (dict_append k x d) = Some (default [] (dict_get k d) ++ [x]).
Proof.
  induction d as [|[k' v] d IH].
  - rewrite dict_append_nil. simpl. by rewrite decide_True.
  - rewrite dict_append_cons. simpl.
    destruct (decide (k = k')) as [->|Hne]; simpl.
    + by rewrite decide_True.
    + by rewrite decide_False.
Qed.

Lemma dict_get_append_ne k k' (x : A) d :
  k <> k' -> dict_get k' (dict_append k x d) = dict_get k' d.
Proof.
  intros Hne. induction d as [|[k0 v] d IH].
  - rewrite dict_append_nil. simpl. case_decide; congruence.
  - rewrite dict_append_cons. simpl.
    destruct (decide (k = k0)) as [->|Hne0]; simpl.
    + case_decide; congruence.
    + destruct (decide (k' = k0)); done.
Qed.

Lemma dict_append_values k (x : A) d :
  concat (dict_append k x d).*2 ≡ₚ x :: concat d.*2.
Proof.
  induction d as [|[k' v] d IH].
  - by rewrite dict_append_nil.
  - rewrite dict_append_cons. destruct (decide (k = k')); simpl.
    + rewrite <- app_assoc. simpl.
      by rewrite <- Permutation_middle.
    + rewrite IH. by rewrite <- Permutation_middle.
Qed.

Lemma dict_append_keys k (x : A) d :
  (dict_append k x d).*1 = d.*1 \/
  ((k ∉ d.*1) /\ (dict_append k x d).*1 = d.*1 ++ [k]).
Proof.
  induction d as [|[k' v] d IH].
  - right. rewrite dict_append_nil. split; [apply not_elem_of_nil | done].
  - rewrite dict_append_cons.
    destruct (decide (k = k')) as [->|Hne]; rewrite !fmap_cons.
    + by left.
    + destruct IH as [IH|[Hk IH]].
      * left. by rewrite IH.
      * right. split; [|by rewrite IH].
        rewrite elem_of_cons. intros [?|?]; done.
Qed.

Lemma dict_append_keys_NoDup k (x : A) d :
  NoDup d.*1 -> NoDup (dict_append k x d).*1.
Proof.
  intros Hd. destruct (dict_append_keys k x d) as [->|[Hk ->]]; [done|].
  apply NoDup_app. split_and!; [done | | apply NoDup_singleton].
  intros y Hy ->%list_elem_of_singleton. done.
Qed.

End dict_facts.


(** ** The partition loop *)

Section partition_facts.
Context {A : Type}.
Implicit Types (xs l : list A) (d : dict Z (list A)) (p b : Z).

(** The two forms of the loop agree, and the state machine needs no more
    iterations than the stack has elements. *)
Lemma pop_snoc l (x : A) : pop (l ++ [x]) = Some (l, x).
Proof.
  unfold pop. rewrite reverse_app. simpl. by rewrite reverse_involutive.
Qed.

Lemma url_blocks_while_loop fuel p l d :
  (length l <= fuel)%nat ->
  url_blocks_while fuel p l d = Some (url_blocks_loop p (reverse l) d).
Proof.
  revert l d. induction fuel as [|fuel IH]; intros l d Hlen.
  - destruct l; [done | simpl in Hlen; lia].
  - destruct l as [|y l'] using rev_ind; [done|].
    clear IHl'. rewrite reverse_app. cbn [url_blocks_while].
    assert ((0 <? len (l' ++ [y])) = true) as ->.
    { apply Z.ltb_lt. unfold len. rewrite length_app. simpl. lia. }
    simpl. destruct (p =? 0) eqn:Hp; [done|].
    rewrite pop_snoc. rewrite IH.
    + do 3 f_equal. unfold len. f_equal.
      rewrite length_app. cbn [length]. rewrite length_reverse. lia.
    + rewrite length_app in Hlen. simpl in Hlen. lia.
Qed.

Lemma url_blocks_loop_Ok p xs d :
  p <> 0 -> exists blocks, url_blocks_loop p xs d = Ok blocks.
Proof.
  intros Hp. revert d. induction xs as [|x xs IH]; intros d; simpl.
  - by eexists.
  - apply Z.eqb_neq in Hp. rewrite Hp. apply IH.
Qed.

Lemma url_blocks_loop_zero xs d :
  xs <> [] -> url_blocks_loop 0 xs d = Raise ZeroDivisionError.
Proof. destruct xs; done. Qed.




Lemma url_blocks_loop_values p xs d blocks :
  url_blocks_loop p xs d = Ok blocks ->
  concat blocks.*2 ≡ₚ concat d.*2 ++ xs.
Proof.
  revert d. induction xs as [|x xs IH]; intros d Hloop.
  - simpl in Hloop. injection Hloop as <-. by rewrite app_nil_r.
  - simpl in Hloop. destruct (p =? 0); [done|].
    apply IH in Hloop. rewrite Hloop, dict_append_values.
    by rewrite <- Permutation_middle.
Qed.

Lemma url_blocks_loop_keys p xs d blocks :
  url_blocks_loop p xs d = Ok blocks -> NoDup d.*1 -> NoDup blocks.*1.
Proof.
  revert d. induction xs as [|x xs IH]; intros d Hloop Hd.
  - simpl in Hloop. by injection Hloop as <-.
  - simpl in Hloop. destruct (p =? 0); [done|].
    eapply IH; [done|]. by apply dict_append_keys_NoDup.
Qed.

End partition_facts.


(** ** Scheduling *)

Lemma insert_by_time_perm x l : insert_by_time x l ≡ₚ x :: l.
Proof.
  induction l as [|y l IH]; simpl; [done|].
  destruct (time x <=? time y); [done|].
  rewrite IH. apply Permutation_swap.
Qed.

Lemma sorted_by_time_perm l : sorted_by_time l ≡ₚ l.
Proof.
  induction l as [|x l IH]; simpl; [done|].
  by rewrite insert_by_time_perm, IH.
Qed.

(** [sorted_by_time] is sorted and keeps URLs of equal offset in their
    order, as Python's stable [sorted] does. *)
Lemma insert_by_time_sorted x l :
  StronglySorted (fun a b => time a <= time b) l ->
  StronglySorted (fun a b => time a <= time b) (insert_by_time x l).
Proof.
  induction 1 as [|y l Hl IH Hy]; simpl.
  - repeat constructor.
  - destruct (time x <=? time y) eqn:Hxy.
    + apply Z.leb_le in Hxy. constructor; [by constructor|].
      constructor; [done|].
      eapply Forall_impl; [exact Hy|]. simpl. intros; lia.
    + apply Z.leb_gt in Hxy. constructor; [done|].
      rewrite insert_by_time_perm. constructor; [lia | done].
Qed.

Lemma sorted_by_time_sorted l :
  StronglySorted (fun a b => time a <= time b) (sorted_by_time l).
Proof.
  induction l as [|x l IH]; simpl; [constructor|].
  by apply insert_by_time_sorted.
Qed.

Lemma insert_by_time_stable t x l :
  filter (fun a => time a = t) (insert_by_time x l)
  = filter (fun a => time a = t) (x :: l).
Proof.
  induction l as [|y l IH]; simpl; [done|].
  destruct (time x <=? time y) eqn:Hxy; [done|].
  apply Z.leb_gt in Hxy.
  rewrite (filter_cons _ y), IH, !filter_cons.
  repeat case_decide; (done || lia).
Qed.

Lemma sorted_by_time_stable t l :
  filter (fun a => time a = t) (sorted_by_time l)
  = filter (fun a => time a = t) l.
Proof.
  induction l as [|x l IH]; simpl; [done|].
  by rewrite insert_by_time_stable, !filter_cons, IH.
Qed.

Lemma schedule_domain_iter T us t :
  schedule_domain T us t
  = imap (fun i u => {| url := u; time := Nat.iter i (advance T) t |}) us.
Proof.
  revert t. induction us as [|u us IH]; intros t; [done|].
  cbn [schedule_domain imap]. f_equal.
  fold (advance T t). rewrite IH. apply imap_ext.
  intros i v _. simpl. by rewrite Nat.iter_swap.
Qed.

Lemma offset_at_zero T : offset_at T 0 = 0.
Proof. unfold offset_at. destruct (T mod 5 =? 0); lia. Qed.

Lemma offset_at_succ T i : offset_at T (S i) = advance T (offset_at T i).
Proof.
  unfold offset_at, advance. destruct (T mod 5 =? 0) eqn:HT.
  - apply Z.eqb_eq in HT.
    assert ((Z.of_nat i * T) mod 5 = 0) as ->.
    { rewrite <- Z.mul_mod_idemp_r, HT by lia. by rewrite Z.mul_0_r. }
    simpl. lia.
  - destruct i; [done|]. by rewrite HT.
Qed.

Lemma iter_advance T i : Nat.iter i (advance T) 0 = offset_at T i.
Proof.
  induction i as [|i IH]; [by rewrite offset_at_zero|].
  simpl. by rewrite IH, offset_at_succ.
Qed.

Lemma schedule_domain_offsets T us :
  schedule_domain T us 0
  = imap (fun i u => {| url := u; time := offset_at T i |}) us.
Proof.
  rewrite schedule_domain_iter. apply imap_ext.
  intros i u _. simpl. by rewrite iter_advance.
Qed.

Lemma schedule_domains_buckets T (domain_urls : dict string (list string)) :
  schedule_domains T domain_urls
  = concat ((fun us => imap (fun i u => {| url := u; time := offset_at T i |}) us)
              <$> domain_urls.*2).
Proof.
  induction domain_urls as [|[k us] d IH]; [done|].
  cbn [schedule_domains]. rewrite IH, schedule_domain_offsets. done.
Qed.

Lemma schedule_domains_urls T (domain_urls : dict string (list string)) :
  url <$> schedule_domains T domain_urls = concat domain_urls.*2.
Proof.
  induction domain_urls as [|[k us] d IH]; [done|].
  cbn [schedule_domains]. rewrite fmap_app, IH. simpl. f_equal.
  generalize 0. clear. induction us as [|u us IH]; intros t; [done|].
  simpl. by rewrite IH.
Qed.

Lemma bucket_urls_values E urls (d domain_urls : dict string (list string)) :
  bucket_urls E urls d = Ok domain_urls ->
  concat domain_urls.*2 ≡ₚ concat d.*2 ++ urls.
Proof.
  revert d. induction urls as [|u urls IH]; intros d Hb; simpl in Hb.
  - injection Hb as <-. by rewrite app_nil_r.
  - destruct (get_url_domain E u) as [domain|]; [|done]. simpl in Hb.
    apply IH in Hb. rewrite Hb, dict_append_values.
    by rewrite <- Permutation_middle.
Qed.

Lemma bucket_urls_Ok E urls (d : dict string (list string)) :
  Forall (fun u => is_Ok (get_url_domain E u)) urls ->
  exists domain_urls, bucket_urls E urls d = Ok domain_urls.
Proof.
  intros Hall. revert d. induction Hall as [|u urls [domain Hu] _ IH]; intros d.
  - by eexists.
  - simpl. rewrite Hu. simpl. apply IH.
Qed.

(** [__get_url_domain] does not raise when the expression for country
    domains only matches hosts that have a dot. *)
Lemma str_split_aux_length sep s cur : (1 <= length (str_split_aux sep s cur))%nat.
Proof.
  revert cur. induction s as [|c s IH]; intros cur; simpl; [lia|].
  destruct (Ascii.eqb c sep); simpl; [lia | apply IH].
Qed.

Lemma py_index_Ok {A} (l : list A) i :
  - len l <= i < len l -> is_Ok (py_index l i).
Proof.
  unfold py_index, len. intros Hi.
  destruct (i <? 0) eqn:Hneg;
    [apply Z.ltb_lt in Hneg | apply Z.ltb_ge in Hneg].
  - assert ((i + Z.of_nat (length l) <? 0) = false) as -> by lia.
    destruct (l !! Z.to_nat (i + Z.of_nat (length l))) eqn:Hl; [by eexists|].
    apply lookup_ge_None in Hl. lia.
  - assert ((i <? 0) = false) as -> by lia.
    destruct (l !! Z.to_nat i) eqn:Hl; [by eexists|].
    apply lookup_ge_None in Hl. lia.
Qed.

Lemma get_url_domain_Ok E u :
  (re_search E "\...$" (get_url_host E u) false = true ->
   2 <= len (str_split "." (get_url_host E u))) ->
  is_Ok (get_url_domain E u).
Proof.
  intros Hdot. unfold get_url_domain.
  destruct (is_http_url E u); simpl; [|by eexists].
  pose proof (str_split_aux_length "." (get_url_host E u) EmptyString) as Hlen.
  fold (str_split "." (get_url_host E u)) in Hlen.
  set (name_parts := str_split "." (get_url_host E u)) in *.
  assert (1 <= len name_parts) as Hlen' by (unfold len; lia).
  destruct (re_search E "\...$" (get_url_host E u) false).
  - specialize (Hdot eq_refl).
    destruct (py_index_Ok name_parts (len name_parts - 1 - 2)) as [p2 ->]; [lia|].
    destruct (py_index_Ok name_parts (len name_parts - 1 - 1)) as [p1 ->]; [lia|].
    destruct (py_index_Ok name_parts 0) as [p0 ->]; [lia|].
    by eexists.
  - destruct (re_search E _ _ false); [by eexists|].
    destruct (py_index_Ok name_parts (len name_parts - 1 - 1)) as [p1 ->]; [lia|].
    destruct (py_index_Ok name_parts (len name_parts - 1)) as [pn ->]; [lia|].
    by eexists.
Qed.

Lemma get_scheduled_urls_perm E urls T url_stack :
  get_scheduled_urls E urls T = Ok url_stack -> url <$> url_stack ≡ₚ urls.
Proof.
  unfold get_scheduled_urls. intros H.
  destruct (bucket_urls E urls []) as [d|] eqn:Hb; [|done].
  simpl in H. injection H as <-.
  rewrite sorted_by_time_perm, schedule_domains_urls.
  by rewrite (bucket_urls_values _ _ _ _ Hb).
Qed.


(** ** Workers *)

Lemma worker_get_url E t s s' :
  url s = url s' -> worker_get E t s = worker_get E t s'.
Proof. unfold worker_get. by intros ->. Qed.

Lemma parallel_get_web_store_Ok E t block :
  Forall (fun s => is_Ok (worker_get E t s)) block ->
  exists responses,
    parallel_get_web_store E block t = Ok responses
    /\ Forall2 (fun s r => worker_get E t s = Ok r) block responses.
Proof.
  induction 1 as [|s block [r Hr] _ (rs & Hrs & Hall)]; simpl.
  - exists []. by split.
  - exists (r :: rs). rewrite Hr. simpl. rewrite Hrs. simpl.
    split; [done | by constructor].
Qed.

Lemma parallel_get_web_store_raises E t block :
  Exists (fun s => raises (worker_get E t s)) block ->
  raises (parallel_get_web_store E block t).
Proof.
  induction 1 as [s block [e He]|s block _ [e He]]; simpl.
  - rewrite He. by exists e.
  - destruct (worker_get E t s); simpl; [|by eexists].
    rewrite He. by exists e.
Qed.

Lemma collect_results_Ok E t (blocks : dict Z (list ParallelGetScheduledURL)) acc :
  Forall (fun s => is_Ok (worker_get E t s)) (concat blocks.*2) ->
  exists responses,
    collect_results E blocks t acc = Ok (acc ++ responses)
    /\ Forall2 (fun s r => worker_get E t s = Ok r) (concat blocks.*2) responses.
Proof.
  revert acc. induction blocks as [|[i block] blocks IH]; intros acc Hall.
  - exists []. by rewrite app_nil_r.
  - simpl in Hall. apply Forall_app in Hall as [Hblock Hrest].
    destruct (parallel_get_web_store_Ok E t block Hblock) as (rs & Hrs & H2).
    destruct (IH (acc ++ rs) Hrest) as (rs' & Hrs' & H2').
    exists (rs ++ rs'). simpl. rewrite Hrs. simpl. rewrite Hrs'.
    split; [by rewrite app_assoc | by apply Forall2_app].
Qed.

Lemma collect_results_raises E t (blocks : dict Z (list ParallelGetScheduledURL)) acc :
  Exists (fun s => raises (worker_get E t s)) (concat blocks.*2) ->
  raises (collect_results E blocks t acc).
Proof.
  revert acc. induction blocks as [|[i block] blocks IH]; intros acc Hex.
  - by apply Exists_nil in Hex.
  - simpl in Hex. simpl.
    destruct (parallel_get_web_store E block t) as [rs|e] eqn:Hblock;
      simpl; [|by eexists].
    apply Exists_app in Hex as [Hex|Hex]; [|by apply IH].
    apply parallel_get_web_store_raises in Hex as [e He]. congruence.
Qed.

(** ** The claims about [parallel_get] *)

(** X24. What [__get_scheduled_urls] computes. Within each domain bucket
    the first URL receives offset 0, and the offset of each next URL is
    the offset of the URL before it, advanced by the per-domain timeout
    exactly when that offset (not the URL's index) is divisible by 5. So,
    for a timeout divisible by 5 the URL at index [i] gets [i * timeout],
    and for any other timeout the first URL gets 0 and every later URL
    gets the timeout. The scheduled list is the stable sort by offset of
    the buckets so scheduled, taken in the order in which the domains
    first occur. *)
Theorem scheduled_offsets_follow_running_offset
    (E : Env) (urls_ : list string) (per_domain_timeout_ : Z)
    (domain_urls : dict string (list string)) :
  bucket_urls E urls_ [] = Ok domain_urls ->
  get_scheduled_urls E urls_ per_domain_timeout_
  = Ok (sorted_by_time
          (concat ((fun urls_in_domain =>
                      imap (fun i u =>
                              {| url := u;
                                 time := offset_at per_domain_timeout_ i |})
                           urls_in_domain) <$> domain_urls.*2)))
  /\ offset_at per_domain_timeout_ 0 = 0
  /\ (forall i,
        offset_at per_domain_timeout_ (S i)
        = if offset_at per_domain_timeout_ i mod 5 =? 0
          then offset_at per_domain_timeout_ i + per_domain_timeout_
          else offset_at per_domain_timeout_ i)
  /\ (forall i,
        offset_at per_domain_timeout_ i
        = if per_domain_timeout_ mod 5 =? 0
          then Z.of_nat i * per_domain_timeout_
          else if decide (i = 0%nat) then 0 else per_domain_timeout_).
Proof.
  intros Hb. split_and!.
  - unfold get_scheduled_urls. rewrite Hb. simpl.
    by rewrite schedule_domains_buckets.
  - apply offset_at_zero.
  - intros i. apply offset_at_succ.
  - intros i. unfold offset_at. by destruct i.
Qed.

(** X3. The scheduled list is a rearrangement of the input URLs, sorted
    by ascending offset; URLs of equal offset keep the order of the
    buckets. *)
Theorem scheduled_urls_sorted_rearrangement
    (E : Env) (urls_ : list string) (per_domain_timeout_ : Z)
    (scheduled_urls : list ParallelGetScheduledURL) :
  get_scheduled_urls E urls_ per_domain_timeout_ = Ok scheduled_urls ->
  url <$> scheduled_urls ≡ₚ urls_
  /\ StronglySorted (fun a b => time a <= time b) scheduled_urls
  /\ exists domain_urls,
       bucket_urls E urls_ [] = Ok domain_urls
       /\ forall t,
            filter (fun a => time a = t) scheduled_urls
            = filter (fun a => time a = t)
                (schedule_domains per_domain_timeout_ domain_urls).
Proof.
  intros Hsched. split; [by eapply get_scheduled_urls_perm|].
  unfold get_scheduled_urls in Hsched.
  destruct (bucket_urls E urls_ []) as [domain_urls|]; [|done].
  simpl in Hsched. injection Hsched as <-.
  split; [apply sorted_by_time_sorted|].
  exists domain_urls. split; [done|].
  intros t. apply sorted_by_time_stable.
Qed.


(** C9 (as amended). For a non-empty list of URLs whose domains can be
    computed and a configured worker count of at least 1, the scheduled
    list is a rearrangement of the input URLs and the worker blocks form a
    partition of the scheduled list. When the redirect resolver returns a
    response for every input URL, [parallel_get] returns the concatenation
    of the workers' results, one response per scheduled URL; when the
    resolver raises for some input URL, [parallel_get] raises. *)
Theorem parallel_get_partition_and_responses
    (E : Env) (urls : list string)
    (num_parallel timeout_ per_domain_timeout : Z) :
  urls <> [] ->
  web_store_num_parallel (config E) = Some num_parallel ->
  web_store_timeout (config E) = Some timeout_ ->
  web_store_per_domain_timeout (config E) = Some per_domain_timeout ->
  1 <= num_parallel ->
  Forall (fun u => is_Ok (get_url_domain E u)) urls ->
  exists url_stack url_blocks,
    get_scheduled_urls E urls per_domain_timeout = Ok url_stack
    /\ url <$> url_stack ≡ₚ urls
    /\ make_url_blocks num_parallel url_stack = Ok url_blocks
    /\ NoDup url_blocks.*1
    /\ concat url_blocks.*2 ≡ₚ url_stack
    /\ ((forall s, url s ∈ urls -> is_Ok (worker_get E (Some timeout_) s)) ->
        exists responses,
          parallel_get E (Some urls) = Ok responses
          /\ Forall2 (fun s r => worker_get E (Some timeout_) s = Ok r)
               (concat url_blocks.*2) responses
          /\ length responses = length urls)
    /\ ((exists s, url s ∈ urls /\ raises (worker_get E (Some timeout_) s)) ->
        raises (parallel_get E (Some urls))).
Proof.
  intros Hne Hnum Htimeout Hper Hpos Hdomains.
  destruct (bucket_urls_Ok E urls [] Hdomains) as [domain_urls Hb].
  assert (exists url_stack,
            get_scheduled_urls E urls per_domain_timeout = Ok url_stack)
    as [url_stack Hsched].
  { unfold get_scheduled_urls. rewrite Hb. by eexists. }
  assert (num_parallel <> 0) as Hp by lia.
  destruct (url_blocks_loop_Ok num_parallel (reverse url_stack) [] Hp)
    as [url_blocks Hloop].
  pose proof (get_scheduled_urls_perm _ _ _ _ Hsched) as Hperm.
  assert (concat url_blocks.*2 ≡ₚ url_stack) as Hpart.
  { rewrite (url_blocks_loop_values _ _ _ _ Hloop). simpl.
    by rewrite reverse_Permutation. }
  assert (parallel_get E (Some urls)
          = collect_results E url_blocks (Some timeout_) []) as Hpg.
  { unfold parallel_get.
    assert ((len urls =? 0) = false) as ->.
    { apply Z.eqb_neq. unfold len. destruct urls; [done | simpl; lia]. }
    rewrite Hnum, Htimeout, Hper, Hsched. simpl.
    unfold make_url_blocks. rewrite Hloop. simpl.
    unfold Pool. by assert ((num_parallel <? 1) = false) as -> by lia. }
  exists url_stack, url_blocks. split_and!; try done.
  - eapply url_blocks_loop_keys; [done | constructor].
  - intros Hall.
    destruct (collect_results_Ok E (Some timeout_) url_blocks []) as (rs & Hrs & H2).
    { apply Forall_forall. intros s Hs. apply Hall.
      rewrite <- Hperm. apply list_elem_of_fmap. exists s. split; [done|].
      by rewrite <- Hpart. }
    exists rs. rewrite Hpg. split_and!; try done.
    rewrite <- (Forall2_length _ _ _ H2), Hpart.
    by rewrite <- Hperm, length_fmap.
  - intros (s & Hs & Hraise). rewrite Hpg. apply collect_results_raises.
    rewrite <- Hperm in Hs. apply list_elem_of_fmap in Hs as (s' & Hurl & Hs').
    rewrite <- Hpart in Hs'. apply Exists_exists. exists s'. split; [done|].
    by rewrite <- (worker_get_url E _ s s').
Qed.


(** ** Strings *)

Lemma str_app_cons x a b : String x a +:+ b = String x (a +:+ b).
Proof. reflexivity. Qed.

Lemma len_str_app a b : len_str (a +:+ b) = len_str a + len_str b.
Proof.
  unfold len_str. induction a as [|c a IH]; [done|].
  rewrite str_app_cons. cbn [String.length]. lia.
Qed.

Lemma str_app_assoc a b c : (a +:+ b) +:+ c = a +:+ (b +:+ c).
Proof.
  induction a as [|x a IH]; [done|].
  by rewrite !str_app_cons, IH.
Qed.

Lemma str_app_nil_r a : a +:+ EmptyString = a.
Proof.
  induction a as [|x a IH]; [done|].
  by rewrite str_app_cons, IH.
Qed.

Lemma len_str_zero a : len_str a = 0 <-> a = EmptyString.
Proof. unfold len_str. destruct a; simpl; split; intros; (done || lia). Qed.

(** ** The executor *)

Ltac run_M :=
  unfold mbind, M_bind, mret, M_ret, raise, lift, load, store, alloc,
    log_write, transport_send in *.

Lemma request_cases E ua request_ st :
  (raises (request E ua request_ st).1
   /\ network (request E ua request_ st).2 = network st)
  \/ exists p,
       network (request E ua request_ st).2 = network st ++ [p]
       /\ (request E ua request_ st).1
          = response_of_outcome ua p
              (session_send E (ua_session ua) p (timeout ua)).
Proof.
  unfold request, blacklist_request_if_needed, log_request. run_M.
  repeat (case_match; simplify_eq/=);
    first [ left; split; [by eexists | done]
          | right; eexists; split; done ].
Qed.

Lemma size_of_first_0 chunks : size_of_first 0 chunks = 0.
Proof. reflexivity. Qed.

Lemma len_chars_app a b : len_chars (a +:+ b) = len_chars a + len_chars b.
Proof.
  induction a as [|c a IH]; [done|].
  rewrite str_app_cons. cbn [len_chars]. lia.
Qed.

Lemma len_chars_nonneg s : 0 <= len_chars s.
Proof.
  induction s as [|c s IH]; cbn [len_chars]; [done|].
  destruct (is_continuation_byte c); lia.
Qed.

Lemma size_of_first_S k chunk rest :
  size_of_first (S k) (chunk :: rest) = len_chars chunk + size_of_first k rest.
Proof.
  unfold size_of_first. cbn [take str_concat foldr]. by rewrite len_chars_app.
Qed.

Lemma size_of_first_mono j k chunks :
  (j <= k)%nat -> size_of_first j chunks <= size_of_first k chunks.
Proof.
  revert j k. induction chunks as [|chunk rest IH]; intros j k Hjk.
  - unfold size_of_first. by rewrite !take_nil.
  - destruct j as [|j].
    + rewrite size_of_first_0. apply len_chars_nonneg.
    + destruct k as [|k]; [lia|]. rewrite !size_of_first_S.
      specialize (IH j k). lia.
Qed.

Lemma yields_cons chunk chunks rest :
  yields (chunk :: chunks) rest = Yield (Text chunk) (yields chunks rest).
Proof. reflexivity. Qed.

(** The loop on a stream that starts with the text [chunks]: it stops
    after the first of them that takes the size past the limit, or reads
    them all and goes on with the rest of the stream. *)
Lemma read_body_yields ms chunks rest data size :
  (exists (k : nat) (m : Z),
     ms = Some m /\ (0 < k <= length chunks)%nat
     /\ (forall j, (0 < j < k)%nat -> size + size_of_first j chunks <= m)
     /\ m < size + size_of_first k chunks
     /\ read_body ms (yields chunks rest) data size
        = Ok (data +:+ str_concat (take k chunks),
              size + size_of_first k chunks, yields (drop k chunks) rest))
  \/ ((forall m j, ms = Some m -> (0 < j <= length chunks)%nat ->
                   size + size_of_first j chunks <= m)
      /\ read_body ms (yields chunks rest) data size
         = read_body ms rest (data +:+ str_concat chunks)
             (size + size_of_first (length chunks) chunks)).
Proof.
  revert data size. induction chunks as [|chunk chunks IH]; intros data size.
  - right. split; [intros; simpl in *; lia|].
    simpl. by rewrite size_of_first_0, str_app_nil_r, Z.add_0_r.
  - rewrite yields_cons. cbn [read_body].
    destruct ms as [m|].
    + destruct (m <? size + len_chars chunk) eqn:Hm;
        [apply Z.ltb_lt in Hm | apply Z.ltb_ge in Hm].
      * left. exists 1%nat, m.
        split; [done|]. split; [simpl; lia|]. split; [intros j Hj; lia|].
        rewrite size_of_first_S, size_of_first_0. split; [lia|].
        cbn [take str_concat foldr drop].
        by rewrite str_app_nil_r, Z.add_0_r.
      * destruct (IH (data +:+ chunk) (size + len_chars chunk))
          as [(k & m' & Hms & Hk & Hbefore & Hpast & Hread)|[Hwithin Hread]].
        -- injection Hms as <-. left. exists (S k), m.
           split; [done|]. split; [simpl; lia|]. split; [|split].
           ++ intros [|j] Hj; [lia|]. rewrite size_of_first_S.
              destruct j as [|j]; [rewrite size_of_first_0; lia|].
              specialize (Hbefore (S j)). lia.
           ++ rewrite size_of_first_S. lia.
           ++ rewrite Hread, size_of_first_S. cbn [take str_concat foldr drop].
              by rewrite str_app_assoc, Z.add_assoc.
        -- right. split.
           ++ intros m' [|j] [= <-] Hj; [lia|]. rewrite size_of_first_S.
              destruct j as [|j]; [rewrite size_of_first_0; lia|].
              specialize (Hwithin m (S j) eq_refl). simpl in Hj. lia.
           ++ rewrite Hread. cbn [length]. rewrite size_of_first_S.
              cbn [str_concat foldr].
              by rewrite str_app_assoc, Z.add_assoc.
    + destruct (IH (data +:+ chunk) (size + len_chars chunk))
        as [(k & m' & Hms & _)|[Hwithin Hread]]; [done|].
      right. split; [done|].
      rewrite Hread. cbn [length]. rewrite size_of_first_S.
      cbn [str_concat foldr].
      by rewrite str_app_assoc, Z.add_assoc.
Qed.

(** A request that reached the transport as [p]: its result is read off
    the transport's answer. *)
Lemma request_sent E ua request_ st res st' p :
  request E ua request_ st = (res, st') ->
  network st' = network st ++ [p] ->
  res = response_of_outcome ua p (session_send E (ua_session ua) p (timeout ua)).
Proof.
  intros Hrun Hnet.
  destruct (request_cases E ua request_ st) as [[_ Hsame]|(p' & Hsent & Hres)];
    rewrite Hrun in *; simpl in *.
  - rewrite Hsame in Hnet. apply (f_equal length) in Hnet.
    rewrite length_app in Hnet. simpl in Hnet. lia.
  - rewrite Hsent in Hnet. by apply app_inj_tail in Hnet as [_ ->].
Qed.

(** ** The claims about [request()] *)

(** C4. A request that was handed to the transport as [p] and on which the
    transport failed yields a response, not an exception: on a timeout a
    response with status 408, on any other fault a response with status
    400, reason "Client-side error" and the header
    [Client-Warning: Client-side error]; both are marked as client-side
    errors and have no [previous] chain. *)
Theorem request_transport_failure_is_client_side_response
    (E : Env) (ua : UserAgent) (request_ : option ref) (st st' : State)
    (res : result Response) (p : PreparedRequest) :
  request E ua request_ st = (res, st') ->
  network st' = network st ++ [p] ->
  (forall ex,
     session_send E (ua_session ua) p (timeout ua) = SendTimeout ex ->
     exists response,
       res = Ok response
       /\ code response = 408
       /\ error_is_client_side response = true
       /\ previous response = None)
  /\ (forall ex,
        session_send E (ua_session ua) p (timeout ua) = SendException ex ->
        exists response,
          res = Ok response
          /\ code response = 400
          /\ message response = "Client-side error"
          /\ dict_get "Client-Warning" (headers response)
             = Some "Client-side error"
          /\ error_is_client_side response = true
          /\ previous response = None).
Proof.
  intros Hrun Hnet.
  destruct (request_cases E ua request_ st) as [[_ Hsame]|(p' & Hsent & Hres)];
    rewrite Hrun in *; simpl in *.
  - rewrite Hsame in Hnet. apply (f_equal length) in Hnet.
    rewrite length_app in Hnet. simpl in Hnet. lia.
  - rewrite Hsent in Hnet. apply app_inj_tail in Hnet as [_ ->].
    split; intros ex Hex; rewrite Hex in Hres; rewrite Hres;
      eexists; split_and!; reflexivity.
Qed.


(** C8 (as amended). For a request object with a non-empty URL,
    [__blacklist_request_if_needed] returns the very object it was handed.
    When the URL matches the configured blacklist pattern, that object's
    URL is replaced in place by
    [http://blacklistedsite.localhost/<original-url>], so the request the
    caller holds carries the substituted URL too; when it does not match,
    the object is left as it was. No other object, the audit log and the
    network are not touched. *)
Theorem blacklist_updates_the_request_in_place
    (E : Env) (request_ : ref) (rq : Request) (u : string) (st : State) :
  heap st !! request_ = Some rq ->
  rq_url rq = Some u ->
  u <> EmptyString ->
  exists st',
    blacklist_request_if_needed E (Some request_) st = (Ok request_, st')
    /\ heap st' !! request_
       = Some (if blacklisted E u
               then Request_set_url rq (BLACKLISTED_PREFIX +:+ u)
               else rq)
    /\ (forall r, r <> request_ -> heap st' !! r = heap st !! r)
    /\ http_request_log st' = http_request_log st
    /\ network st' = network st.
Proof.
  intros Hrq Hu Hne.
  assert ((len_str u =? 0) = false) as Hlen.
  { apply Z.eqb_neq. by rewrite len_str_zero. }
  unfold blacklist_request_if_needed, blacklisted. run_M.
  rewrite Hrq, Hu, Hlen.
  destruct (blacklist_url_pattern (config E)) as [pattern|];
    [destruct ((0 <? len_str pattern) && re_search E pattern u true)|];
    simpl; eexists; (split; [reflexivity|]); simpl;
    split_and!; try done.
  - by rewrite lookup_insert_eq.
  - intros r Hr. by rewrite lookup_insert_ne.
Qed.


(** ** Retry configuration *)

Lemma dict_get_set_eq {K V} `{EqDecision K} (k : K) (v : V) (d : dict K V) :
  dict_get k (dict_set k v d) = Some v.
Proof.
  induction d as [|[k' v'] d IH]; simpl.
  - by rewrite decide_True.
  - destruct (decide (k = k')) as [->|Hne]; simpl.
    + by rewrite decide_True.
    + by rewrite decide_False.
Qed.

Lemma dict_get_set_ne {K V} `{EqDecision K} (k k' : K) (v : V) (d : dict K V) :
  k <> k' -> dict_get k' (dict_set k v d) = dict_get k' d.
Proof.
  intros Hne. induction d as [|[k0 v0] d IH]; simpl.
  - case_decide; congruence.
  - destruct (decide (k = k0)) as [->|Hne0]; simpl.
    + case_decide; [congruence | done].
    + case_decide; done.
Qed.

Lemma mount_all_adapters adapter s :
  dict_get "http://" (adapters (mount_all adapter s)) = Some adapter
  /\ dict_get "https://" (adapters (mount_all adapter s)) = Some adapter.
Proof.
  unfold http_prefixes, mount_all. simpl. split.
  - rewrite dict_get_set_ne by done. apply dict_get_set_eq.
  - apply dict_get_set_eq.
Qed.

Lemma py_index_0 {A} (x : A) l : py_index (x :: l) 0 = Ok x.
Proof. reflexivity. Qed.

Lemma py_index_1 {A} (x y : A) l : py_index (x :: y :: l) 1 = Ok y.
Proof. reflexivity. Qed.

(** What [set_timing] does with a non-empty list. *)
Lemma set_timing_list ua l :
  l <> [] ->
  set_timing ua (TimingList l)
  = Ok {| ua_session :=
            mount_all
              {| max_retries :=
                   Some {| total := len l;
                           backoff_factor :=
                             match l with
                             | [t0] => t0
                             | t0 :: t1 :: _ => t1 - t0
                             | [] => 0
                             end;
                           status_forcelist := DETERMINED_HTTP_CODES |} |}
              (ua_session ua);
          ua_timeout := ua_timeout ua; ua_max_size := ua_max_size ua;
          ua_timing := Some l |}.
Proof.
  intros Hne. unfold set_timing.
  destruct l as [|t0 [|t1 l]]; [done | done |].
  assert ((len (t0 :: t1 :: l) =? 0) = false) as ->.
  { apply Z.eqb_neq. unfold len. simpl. lia. }
  cbn [mbind result_bind].
  assert ((len (t0 :: t1 :: l) =? 1) = false) as ->.
  { apply Z.eqb_neq. unfold len. simpl. lia. }
  by rewrite py_index_0, py_index_1.
Qed.

(** C3. With a non-empty timing list, [http://] and [https://] are both
    served by an adapter whose retry policy has [total] the length of the
    list, as back-off factor the only element of a one-element list and
    the second element minus the first of a longer one, and forces a retry
    on exactly the status codes 408, 500, 502, 503, 504 and 429. With
    [None], [http://] and [https://] are both served by an adapter without
    retries. *)
Theorem set_timing_configures_retries (ua : UserAgent) (l : list Z) :
  l <> [] ->
  (exists ua' retries,
     set_timing ua (TimingList l) = Ok ua'
     /\ timing ua' = Some l
     /\ dict_get "http://" (adapters (ua_session ua'))
        = Some {| max_retries := Some retries |}
     /\ dict_get "https://" (adapters (ua_session ua'))
        = Some {| max_retries := Some retries |}
     /\ total retries = len l
     /\ backoff_factor retries
        = match l with
          | [t0] => t0
          | t0 :: t1 :: _ => t1 - t0
          | [] => 0
          end
     /\ forall status,
          status ∈ status_forcelist retries
          <-> status ∈ [408; 500; 502; 503; 504; 429])
  /\ (exists ua',
        set_timing ua TimingNone = Ok ua'
        /\ timing ua' = None
        /\ dict_get "http://" (adapters (ua_session ua'))
           = Some {| max_retries := None |}
        /\ dict_get "https://" (adapters (ua_session ua'))
           = Some {| max_retries := None |}).
Proof.
  intros Hne. split.
  - eexists _, _. split; [by apply set_timing_list|]. split; [done|].
    split; [apply mount_all_adapters|]. split; [apply mount_all_adapters|].
    by simpl.
  - eexists. split; [done|]. split; [done|].
    split; apply mount_all_adapters.
Qed.

(** C10. [set_timing([])] does not raise and has the effect of
    [set_timing(None)]: [timing()] is [None] afterwards and [http://] and
    [https://] are both served by an adapter without retries, whatever
    served them before. The only argument on which [set_timing] raises is
    one that is neither [None] nor a list. *)
Theorem set_timing_empty_list_disables_retries (ua : UserAgent) :
  set_timing ua (TimingList []) = set_timing ua TimingNone
  /\ (exists ua',
        set_timing ua (TimingList []) = Ok ua'
        /\ timing ua' = None
        /\ dict_get "http://" (adapters (ua_session ua'))
           = Some {| max_retries := None |}
        /\ dict_get "https://" (adapters (ua_session ua'))
           = Some {| max_retries := None |})
  /\ (forall arg, raises (set_timing ua arg) <-> arg = TimingNotAList).
Proof.
  split; [done|]. split.
  - eexists. split; [done|]. split; [done|].
    split; apply mount_all_adapters.
  - intros arg. split.
    + intros [e He]. destruct arg as [|l|]; [done| |done].
      destruct l as [|t0 l]; [done|].
      by rewrite set_timing_list in He.
    + intros ->. by eexists.
Qed.

(** ** The redirect resolver *)

(** C7. With [max_redirect()] equal to 0, [get_follow_http_html_redirects]
    raises [McGetFollowHTTPHTMLRedirectsException] for every argument and
    leaves the state as it was: nothing is sent to the network, written to
    the audit log or allocated. For a URL that passes the checks made
    before (it is not [None] and is HTTP(s) after
    [fix_common_url_mistakes]) the message is the one about
    [max_redirect]. *)
Theorem max_redirect_zero_raises_before_any_request
    (E : Env) (ua : UserAgent) (url_ : option string) (st : State) :
  max_redirect ua = Some 0 ->
  exists msg,
    get_follow_http_html_redirects E ua url_ st
    = (Raise (McGetFollowHTTPHTMLRedirectsException msg), st)
    /\ forall u,
         url_ = Some u ->
         is_http_url E (fix_common_url_mistakes E u) = true ->
         msg = "User agent's max_redirect is 0, subroutine might loop indefinitely.".
Proof.
  intros Hzero. unfold get_follow_http_html_redirects.
  destruct url_ as [u|].
  - destruct (is_http_url E (fix_common_url_mistakes E u)) eqn:Hhttp; simpl.
    + rewrite decide_True by done. eexists. split; [done|]. by intros.
    + eexists. split; [done|]. intros ? [= <-]. congruence.
  - eexists. split; [done|]. by intros.
Qed.



(** X2. With a worker count of 0 the partition loop of [parallel_get]
    raises [ZeroDivisionError] on any non-empty list. *)
Theorem url_blocks_zero_workers {A : Type} (url_stack : list A) :
  url_stack <> [] ->
  make_url_blocks 0 url_stack = Raise ZeroDivisionError
  /\ url_blocks_while (length url_stack) 0 url_stack []
     = Some (Raise ZeroDivisionError).
Proof.
  intros Hne.
  assert (make_url_blocks 0 url_stack = Raise ZeroDivisionError) as Hloop.
  { unfold make_url_blocks. apply url_blocks_loop_zero.
    intros Hrev. apply Hne. by rewrite <- (reverse_involutive url_stack), Hrev. }
  split; [done|].
  rewrite url_blocks_while_loop by done. by f_equal.
Qed.

(** C2 (the code at the failing input). A story whose URL answers 301 to
    a paywall URL that embeds the story's URL, URL-encoded, fetched with
    [max_redirect = 1]: the paywall page refreshes to a login page and the
    hop budget is used up with the login response in hand. Walking the
    chain as the claim says finds the story's response, the second prior
    hop; the code looks at the nearest prior hop in every iteration, finds
    nothing and returns the response of the first [get()]. *)
Theorem paywall_heuristic_never_reaches_the_second_hop :
  previous_chain login_response = [paywall_response; story_response]
  /\ (exists st1 st2,
        get paywall_env (test_ua_with (Some 1)) (Some story_url) State_empty
        = (Ok paywall_response, st1)
        /\ forall inner_next,
             inner_follow_redirects paywall_env (test_ua_with (Some 1)) 1
               inner_next paywall_response st1
             = inner_next login_response st2)
  /\ paywall_walk paywall_env (previous_chain login_response) []
     = Some story_response
  /\ inner_redirects_exhausted paywall_env 1 login_response = Ok None
  /\ (get_follow_http_html_redirects paywall_env (test_ua_with (Some 1))
        (Some story_url) State_empty).1
     = Ok paywall_response
  /\ story_response <> paywall_response.
Proof.
  split_and!; try (vm_compute; reflexivity); try done.
  eexists _, _. split; [vm_compute; reflexivity|].
  intros inner_next. reflexivity.
Qed.


(** ** The theorems at concrete inputs *)

(** C1 (the code at the failing input). Seven URLs of one domain with a
    per-domain timeout of 1: the code gives the first URL offset 0 and all
    the others offset 1, so six URLs of one domain are due at the same
    moment; advancing at every fifth index, as the claim says, gives the
    seventh URL offset 2. *)
Lemma seven_urls_of_one_domain_are_not_spaced :
  get_scheduled_urls (test_env test_config web_hello) seven_urls 1
  = Ok (schedule_domain 1 seven_urls 0)
  /\ time <$> schedule_domain 1 seven_urls 0 = [0; 1; 1; 1; 1; 1; 1]
  /\ time <$> schedule_domain_by_index 1 seven_urls 0 0 = [0; 1; 1; 1; 1; 1; 2]
  /\ schedule_domain 1 seven_urls 0 <> schedule_domain_by_index 1 seven_urls 0 0.
Proof. split_and!; try (vm_compute; reflexivity). by vm_compute. Qed.

Lemma scheduled_offsets_witness :
  bucket_urls (test_env test_config web_hello) three_urls []
  = Ok [("a.com", ["http://a.com/1"; "http://a.com/2"]);
        ("b.com", ["http://b.com/1"])]
  /\ get_scheduled_urls (test_env test_config web_hello) three_urls 5
     = Ok [ {| url := "http://a.com/1"; time := 0 |};
            {| url := "http://b.com/1"; time := 0 |};
            {| url := "http://a.com/2"; time := 5 |} ].
Proof.
  split; [vm_compute; reflexivity|].
  exact (proj1 (scheduled_offsets_follow_running_offset
                  (test_env test_config web_hello) three_urls 5
                  [("a.com", ["http://a.com/1"; "http://a.com/2"]);
                   ("b.com", ["http://b.com/1"])]
                  eq_refl)).
Defined.

Lemma set_timing_configures_retries_witness :
  [1; 2; 4; 8] <> []
  /\ exists ua',
       set_timing test_ua (TimingList [1; 2; 4; 8]) = Ok ua'
       /\ timing ua' = Some [1; 2; 4; 8]
       /\ dict_get "http://" (adapters (ua_session ua'))
          = Some {| max_retries :=
                      Some {| total := 4; backoff_factor := 1;
                              status_forcelist := [408; 500; 502; 503; 504; 429] |} |}
       /\ dict_get "https://" (adapters (ua_session ua'))
          = dict_get "http://" (adapters (ua_session ua')).
Proof.
  split; [done|].
  destruct (set_timing_configures_retries test_ua [1; 2; 4; 8]) as [Hlist _];
    [done|].
  destruct Hlist as (ua' & retries & Hset & Htiming & Hhttp & Hhttps & _).
  exists ua'. split; [exact Hset|]. split; [exact Htiming|].
  split; [|by rewrite Hhttp, Hhttps].
  injection Hset as <-. reflexivity.
Defined.

Lemma request_transport_failure_witness :
  (exists response,
     (request (test_env test_config web_timeout) test_ua (Some 0%nat)
        (state_with_request "http://a.com/1")).1 = Ok response
     /\ code response = 408
     /\ error_is_client_side response = true
     /\ previous response = None)
  /\ (exists response,
        (request (test_env test_config web_unreachable) test_ua (Some 0%nat)
           (state_with_request "http://a.com/1")).1 = Ok response
        /\ code response = 400
        /\ message response = "Client-side error"
        /\ dict_get "Client-Warning" (headers response)
           = Some "Client-side error"
        /\ error_is_client_side response = true
        /\ previous response = None).
Proof.
  split.
  - exact (proj1 (request_transport_failure_is_client_side_response
                    (test_env test_config web_timeout) test_ua (Some 0%nat)
                    (state_with_request "http://a.com/1") _ _
                    (pr_of_request test_ua "http://a.com/1")
                    (surjective_pairing _) eq_refl)
                 "Read timed out." eq_refl).
  - exact (proj2 (request_transport_failure_is_client_side_response
                    (test_env test_config web_unreachable) test_ua (Some 0%nat)
                    (state_with_request "http://a.com/1") _ _
                    (pr_of_request test_ua "http://a.com/1")
                    (surjective_pairing _) eq_refl)
                 "Connection refused" eq_refl).
Defined.




Lemma max_redirect_zero_witness :
  max_redirect (test_ua_with (Some 0)) = Some 0
  /\ exists msg,
       get_follow_http_html_redirects (test_env test_config web_hello)
         (test_ua_with (Some 0)) (Some "http://a.com/1") State_empty
       = (Raise (McGetFollowHTTPHTMLRedirectsException msg), State_empty)
       /\ forall u,
            Some "http://a.com/1" = Some u ->
            is_http_url (test_env test_config web_hello)
              (fix_common_url_mistakes (test_env test_config web_hello) u)
            = true ->
            msg = "User agent's max_redirect is 0, subroutine might loop indefinitely.".
Proof.
  split; [reflexivity|].
  apply (max_redirect_zero_raises_before_any_request
           (test_env test_config web_hello) (test_ua_with (Some 0))
           (Some "http://a.com/1") State_empty).
  reflexivity.
Defined.

(** C8, the claim as stated fails: the request object handed to the
    executor is object 0; after the call the same reference is returned
    and object 0 itself carries the substituted URL. *)
Lemma blacklist_mutates_the_original_counterexample :
  (blacklist_request_if_needed (test_env test_config web_hello) (Some 0%nat)
     (state_with_request "http://a.com/blacklisted")).1 = Ok 0%nat
  /\ heap (state_with_request "http://a.com/blacklisted") !! 0%nat
     = Some (Request_new "GET" "http://a.com/blacklisted")
  /\ heap (blacklist_request_if_needed (test_env test_config web_hello)
             (Some 0%nat) (state_with_request "http://a.com/blacklisted")).2
       !! 0%nat
     = Some (Request_new "GET"
               "http://blacklistedsite.localhost/http://a.com/blacklisted").
Proof. split_and!; vm_compute; reflexivity. Qed.

Lemma blacklist_updates_the_request_witness :
  exists st',
    blacklist_request_if_needed (test_env test_config web_hello) (Some 0%nat)
      (state_with_request "http://a.com/blacklisted") = (Ok 0%nat, st')
    /\ heap st' !! 0%nat
       = Some (Request_new "GET"
                 "http://blacklistedsite.localhost/http://a.com/blacklisted").
Proof.
  destruct (blacklist_updates_the_request_in_place
              (test_env test_config web_hello) 0%nat
              (Request_new "GET" "http://a.com/blacklisted")
              "http://a.com/blacklisted"
              (state_with_request "http://a.com/blacklisted")
              eq_refl eq_refl)
    as (st' & Hrun & Hheap & _); [done|].
  exists st'. split; [exact Hrun | exact Hheap].
Defined.

(** C9, the claim as stated fails: a batch with one URL that is not
    HTTP(s). The worker's resolver raises on it and [parallel_get] raises
    in turn: no list is returned. *)
Lemma parallel_get_raises_counterexample :
  mixed_urls <> []
  /\ parallel_get (test_env test_config web_hello) (Some mixed_urls)
     = Raise (McGetFollowHTTPHTMLRedirectsException
                "URL is not HTTP(s): ftp://a.com/2")
  /\ ~ (exists responses,
          parallel_get (test_env test_config web_hello) (Some mixed_urls)
          = Ok responses).
Proof.
  split; [done|]. split; [vm_compute; reflexivity|].
  intros [responses H]. vm_compute in H. discriminate H.
Qed.

Lemma parallel_get_witness :
  three_urls <> []
  /\ 1 <= 2
  /\ exists responses,
       parallel_get (test_env test_config web_hello) (Some three_urls)
       = Ok responses
       /\ length responses = length three_urls.
Proof.
  split; [done|]. split; [lia|].
  destruct (parallel_get_partition_and_responses
              (test_env test_config web_hello) three_urls 2 20 1)
    as (url_stack & url_blocks & _ & _ & _ & _ & _ & Hok & _);
    [done | reflexivity | reflexivity | reflexivity | lia | |].
  - repeat constructor; eexists; vm_compute; reflexivity.
  - destruct Hok as (responses & Hrun & _ & Hlen).
    + intros s Hs.
      rewrite (worker_get_url _ _ s {| url := url s; time := 0 |}) by done.
      unfold three_urls in Hs.
      repeat (apply elem_of_cons in Hs as [->|Hs];
              [eexists; vm_compute; reflexivity|]).
      by apply elem_of_nil in Hs.
    + exists responses. split; [exact Hrun | exact Hlen].
Defined.


Lemma url_blocks_zero_workers_witness :
  three_urls <> []
  /\ make_url_blocks 0 three_urls = Raise ZeroDivisionError
  /\ url_blocks_while 3 0 three_urls [] = Some (Raise ZeroDivisionError).
Proof.
  split; [done|]. apply (url_blocks_zero_workers three_urls). done.
Defined.

Lemma scheduled_urls_sorted_witness :
  url <$> [ {| url := "http://a.com/1"; time := 0 |};
            {| url := "http://b.com/1"; time := 0 |};
            {| url := "http://a.com/2"; time := 1 |} ] ≡ₚ three_urls
  /\ StronglySorted (fun a b => time a <= time b)
       [ {| url := "http://a.com/1"; time := 0 |};
         {| url := "http://b.com/1"; time := 0 |};
         {| url := "http://a.com/2"; time := 1 |} ].
Proof.
  destruct (scheduled_urls_sorted_rearrangement
              (test_env test_config web_hello) three_urls 1
              [ {| url := "http://a.com/1"; time := 0 |};
                {| url := "http://b.com/1"; time := 0 |};
                {| url := "http://a.com/2"; time := 1 |} ]
              eq_refl)
    as (Hperm & Hsorted & _).
  split; [exact Hperm | exact Hsorted].
Defined.


(** ** More on the UserAgent object *)

Lemma dict_set_set {K V} `{EqDecision K} (k : K) (v v' : V) (d : dict K V) :
  dict_set k v' (dict_set k v d) = dict_set k v' d.
Proof.
  induction d as [|[k0 v0] d IH]; simpl.
  - by rewrite decide_True.
  - destruct (decide (k = k0)) as [->|Hne]; simpl.
    + by rewrite decide_True.
    + rewrite decide_False by done. by rewrite IH.
Qed.

Lemma dict_set_comm {K V} `{EqDecision K} (k k' : K) (v v' : V) (d : dict K V) :
  k <> k' -> is_Some (dict_get k d) ->
  dict_set k v (dict_set k' v' d) = dict_set k' v' (dict_set k v d).
Proof.
  intros Hne. induction d as [|[k0 v0] d IH]; simpl.
  - by intros [? ?].
  - intros Hk. destruct (decide (k = k0)) as [->|Hk0].
    + rewrite decide_False by done. simpl. rewrite decide_True by done.
      by rewrite decide_False.
    + destruct (decide (k' = k0)) as [->|Hk0']; simpl.
      * rewrite decide_False by done. by rewrite decide_True.
      * rewrite !decide_False by done. by rewrite IH.
Qed.

Lemma mount_all_mount_all a a' s : mount_all a' (mount_all a s) = mount_all a' s.
Proof.
  unfold mount_all, Session_mount. simpl. f_equal.
  rewrite (dict_set_comm "http://" "https://") by
    (done || (rewrite dict_get_set_eq; by eexists)).
  by rewrite !dict_set_set.
Qed.

(** X4. [UserAgent()] reads the [owner] and [user_agent] keys of the
    configuration: it raises [KeyError] for [owner] when that key is
    absent, and for [user_agent] when that one is absent and [owner] is
    not. With both keys it does not raise and starts with at most 15
    redirects, a timeout of 20 seconds, a body limit of 10 MB, no retry
    timing and adapters without retries for [http://] and [https://]; the
    session carries the [From], [User-Agent] and [Accept-Charset]
    headers. *)
Theorem UserAgent_new_defaults (E : Env) :
  (owner (config E) = None -> UserAgent_new E = Raise (KeyError "owner"))
  /\ (is_Some (owner (config E)) -> user_agent (config E) = None ->
      UserAgent_new E = Raise (KeyError "user_agent"))
  /\ (forall owner_ user_agent_,
        owner (config E) = Some owner_ ->
        user_agent (config E) = Some user_agent_ ->
        exists ua,
          UserAgent_new E = Ok ua
          /\ max_redirect ua = Some 15
          /\ timeout ua = Some 20
          /\ max_size ua = Some 10485760
          /\ timing ua = None
          /\ dict_get "http://" (adapters (ua_session ua))
             = Some {| max_retries := None |}
          /\ dict_get "https://" (adapters (ua_session ua))
             = Some {| max_retries := None |}
          /\ dict_get "From" (session_headers (ua_session ua))
             = Some owner_
          /\ dict_get "User-Agent" (session_headers (ua_session ua))
             = Some user_agent_
          /\ dict_get "Accept-Charset" (session_headers (ua_session ua))
             = Some "utf-8").
Proof.
  unfold UserAgent_new. split_and!.
  - by intros ->.
  - by intros [owner_ ->] ->.
  - intros owner_ user_agent_ -> ->.
    eexists. split; [reflexivity|]. split_and!; reflexivity.
Qed.

(** X5. The bounds the setters check: [set_timeout] and [set_max_size]
    raise exactly on a value that is zero or negative, [set_max_redirect]
    exactly on a negative one (0 is accepted), and all three accept
    [None]. *)
Theorem setters_check_bounds (ua : UserAgent) (v : option Z) :
  (raises (set_timeout ua v) <-> exists n, v = Some n /\ n <= 0)
  /\ (raises (set_max_size ua v) <-> exists n, v = Some n /\ n <= 0)
  /\ (raises (set_max_redirect ua v) <-> exists n, v = Some n /\ n < 0).
Proof.
  unfold set_timeout, set_max_size, set_max_redirect.
  destruct v as [n|].
  - destruct (n <=? 0) eqn:Hle; destruct (n <? 0) eqn:Hlt;
      (split_and!;
       (split;
        [ intros [e He];
          first [ discriminate He | exists n; split; [done | lia] ]
        | intros (m & [= <-] & Hm); try lia; by eexists ])).
  - split_and!;
      (split;
       [ intros [e He]; discriminate He
       | intros (m & Hm & _); discriminate Hm ]).
Qed.

(** X6. A setter that succeeds changes its own setting and nothing else:
    the getter returns the value just set, and the other settings, the
    session headers and the adapters are as before. *)
Theorem setters_change_one_setting (ua : UserAgent) (v : option Z) :
  (forall ua', set_timeout ua v = Ok ua' ->
     timeout ua' = v /\ max_size ua' = max_size ua
     /\ timing ua' = timing ua /\ ua_session ua' = ua_session ua)
  /\ (forall ua', set_max_size ua v = Ok ua' ->
        max_size ua' = v /\ timeout ua' = timeout ua
        /\ timing ua' = timing ua /\ ua_session ua' = ua_session ua)
  /\ (forall ua', set_max_redirect ua v = Ok ua' ->
        max_redirect ua' = v /\ timeout ua' = timeout ua
        /\ max_size ua' = max_size ua /\ timing ua' = timing ua
        /\ session_headers (ua_session ua') = session_headers (ua_session ua)
        /\ adapters (ua_session ua') = adapters (ua_session ua)).
Proof.
  unfold set_timeout, set_max_size, set_max_redirect.
  split_and!; intros ua' Hset; destruct v as [n|];
    repeat case_match; simplify_eq; done.
Qed.

(** X7. The last call of [set_timing] wins: after a call that succeeded,
    a second call leaves the object as the second call alone would have. *)
Theorem set_timing_last_call_wins (ua ua1 : UserAgent) (arg1 arg2 : TimingArg) :
  set_timing ua arg1 = Ok ua1 ->
  set_timing ua1 arg2 = set_timing ua arg2.
Proof.
  intros Hfirst.
  assert (exists a t, ua1 = {| ua_session := mount_all a (ua_session ua);
                               ua_timeout := ua_timeout ua;
                               ua_max_size := ua_max_size ua;
                               ua_timing := t |}) as (a & t & ->).
  { destruct arg1 as [|l|]; [by eexists _, _; injection Hfirst as <-| |done].
    destruct l as [|t0 l]; [by eexists _, _; injection Hfirst as <-|].
    rewrite set_timing_list in Hfirst by done.
    eexists _, _. by injection Hfirst as <-. }
  unfold set_timing.
  destruct (match arg2 with
            | TimingNone => Ok None
            | TimingList l => if len l =? 0 then Ok None else Ok (Some l)
            | TimingNotAList => _
            end) as [[l|]|]; simpl; [| |done].
  - destruct (if len l =? 1 then _ else _); simpl; [|done].
    by rewrite mount_all_mount_all.
  - by rewrite mount_all_mount_all.
Qed.


(** ** HTTP authentication *)

Lemma auth_lookup_loop_complete domains acc :
  Forall auth_entry_complete domains ->
  exists lookup,
    auth_lookup_loop domains acc = Ok lookup
    /\ forall key,
         dict_get key lookup
         = match last (filter (fun d => auth_key d = key) domains) with
           | Some d => Some d
           | None => dict_get key acc
           end.
Proof.
  intros Hall. revert acc.
  induction Hall as [|d domains ([dom Hdom] & [usr Husr] & [pwd Hpwd]) _ IH];
    intros acc.
  - by exists acc.
  - destruct (IH (dict_set (str_lower dom) d acc)) as (lookup & Hloop & Hget).
    exists lookup. simpl. rewrite Hdom, Husr, Hpwd. split; [done|].
    assert (auth_key d = str_lower dom) as Hkey
      by (unfold auth_key; by rewrite Hdom).
    intros key. rewrite Hget, filter_cons, Hkey.
    destruct (decide (str_lower dom = key)) as [<-|Hne].
    + rewrite last_cons. destruct (last _); [done|].
      by rewrite dict_get_set_eq.
    + destruct (last _); [done|]. by rewrite dict_get_set_ne.
Qed.

Lemma auth_lookup_loop_incomplete domains acc :
  Exists (fun d => ~ auth_entry_complete d) domains ->
  exists msg,
    auth_lookup_loop domains acc
    = Raise (McCrawlerAuthenticatedDomainsException msg).
Proof.
  intros Hex. revert acc.
  induction domains as [|d domains IH]; intros acc.
  - by apply Exists_nil in Hex.
  - simpl. destruct (ad_domain d) as [dom|] eqn:Hdom; [|by eexists].
    destruct (ad_user d) as [usr|] eqn:Husr; [|by eexists].
    destruct (ad_password d) as [pwd|] eqn:Hpwd; [|by eexists].
    apply Exists_cons in Hex as [Hd|Hex]; [|by apply IH].
    exfalso. apply Hd. unfold auth_entry_complete.
    rewrite Hdom, Husr, Hpwd. by split_and!; eexists.
Qed.

(** X8. [__get_domain_http_auth_lookup]: when every configured entry has
    its [domain], [user] and [password], the lookup files each entry under
    its lower-cased domain and a later entry replaces an earlier one of the
    same domain; when some entry lacks one of the three keys, the function
    raises [McCrawlerAuthenticatedDomainsException]; without the setting the
    lookup is empty. *)
Theorem auth_lookup_last_entry_wins (E : Env) :
  (forall domains,
     crawler_authenticated_domains (config E) = Some domains ->
     Forall auth_entry_complete domains ->
     exists lookup,
       get_domain_http_auth_lookup E = Ok lookup
       /\ forall key,
            dict_get key lookup
            = last (filter (fun d => auth_key d = key) domains))
  /\ (forall domains,
        crawler_authenticated_domains (config E) = Some domains ->
        Exists (fun d => ~ auth_entry_complete d) domains ->
        exists msg,
          get_domain_http_auth_lookup E
          = Raise (McCrawlerAuthenticatedDomainsException msg))
  /\ (crawler_authenticated_domains (config E) = None ->
      get_domain_http_auth_lookup E = Ok []).
Proof.
  unfold get_domain_http_auth_lookup. split_and!.
  - intros domains -> Hall.
    destruct (auth_lookup_loop_complete domains [] Hall) as (lookup & Hl & Hget).
    exists lookup. split; [done|]. intros key. rewrite Hget.
    by destruct (last _).
  - intros domains -> Hex. by apply auth_lookup_loop_incomplete.
  - by intros ->.
Qed.

(** X9. [__url_with_http_auth]: with complete entries, the URL gets the
    credentials of the last entry whose domain equals the URL's distinctive
    domain, compared in lower case, and is returned as it is when there is
    no such entry or nothing is configured. *)
Theorem url_with_http_auth_matches_in_lower_case (E : Env) (u : string) :
  (forall domains,
     crawler_authenticated_domains (config E) = Some domains ->
     Forall auth_entry_complete domains ->
     url_with_http_auth E u
     = Ok match last (filter
                        (fun d => auth_key d
                                  = str_lower (get_url_distinctive_domain E u))
                        domains) with
          | Some auth =>
              furl_with_credentials E u
                (default EmptyString (ad_user auth))
                (default EmptyString (ad_password auth))
          | None => u
          end)
  /\ (crawler_authenticated_domains (config E) = None ->
      url_with_http_auth E u = Ok u).
Proof.
  unfold url_with_http_auth, get_domain_http_auth_lookup. split.
  - intros domains -> Hall.
    destruct (auth_lookup_loop_complete domains [] Hall) as (lookup & -> & Hget).
    simpl. rewrite Hget. by destruct (last _).
  - by intros ->.
Qed.


(** ** More on the executor *)

(** X10. [request()] raises [McRequestException] and sends nothing when
    its argument does not pass validation: for [None] and for a request
    without a URL or with an empty one the state is left as it was; for a
    request without a method or without headers, or with only one of the
    two credentials set or non-empty, nothing reaches the transport. *)
Theorem request_validation_sends_nothing
    (E : Env) (ua : UserAgent) (request_ : ref) (rq : Request) (st : State) :
  heap st !! request_ = Some rq ->
  request E ua None st
  = (Raise (McRequestException "Request is None."), st)
  /\ (rq_url rq = None \/ rq_url rq = Some EmptyString ->
      exists msg,
        request E ua (Some request_) st = (Raise (McRequestException msg), st))
  /\ (rq_method rq = None \/ rq_headers rq = None
      \/ raises (check_auth (rq_auth_username rq) (rq_auth_password rq)) ->
      exists msg st',
        request E ua (Some request_) st = (Raise (McRequestException msg), st')
        /\ network st' = network st).
Proof.
  intros Hrq. split; [done|]. split.
  - unfold request, blacklist_request_if_needed. run_M. rewrite Hrq.
    intros [->| ->]; by eexists.
  - intros Hbad.
    assert (forall a b, raises (check_auth a b) ->
              exists msg, check_auth a b = Raise (McRequestException msg))
      as Hauth.
    { intros a b [e He]. unfold check_auth in *.
      repeat case_match; simplify_eq; by eexists. }
    unfold request, blacklist_request_if_needed, log_request. run_M.
    rewrite Hrq.
    destruct (rq_url rq) as [u|] eqn:Hu; [|by eexists _, _].
    destruct (len_str u =? 0) eqn:Hlen; [by eexists _, _|].
    destruct (blacklist_url_pattern (config E)) as [pattern|];
      [destruct ((0 <? len_str pattern) && re_search E pattern u true)|];
      repeat (progress (simpl; rewrite ?Hrq, ?lookup_insert_eq, ?Hu, ?Hlen)).
    all: destruct (rq_method rq) as [m|];
      [|eexists _, _; simpl; split; reflexivity].
    all: destruct (rq_headers rq) as [h|];
      [|eexists _, _; simpl; split; reflexivity].
    all: destruct Hbad as [Hm|[Hh|Ha]]; [done | done |].
    all: destruct (Hauth _ _ Ha) as [msg ->];
      eexists _, _; simpl; split; reflexivity.
Qed.


Lemma previous_chain_unfold r :
  previous_chain r
  = match previous r with
    | None => []
    | Some p => p :: previous_chain p
    end.
Proof. by destruct r. Qed.




(** X13. When the transport gives up after too many redirects, [request()]
    returns the last response the transport fetched, with its status,
    reason and headers, with the text of the exception in place of the
    body, and not marked as a client-side error; when the exception
    carries no response, [request()] raises [McRequestException]. *)
Theorem too_many_redirects_returns_the_last_response
    (E : Env) (ua : UserAgent) (request_ : option ref) (st st' : State)
    (res : result Response) (p : PreparedRequest)
    (ex_response : option RequestsResponse) (ex : string) :
  request E ua request_ st = (res, st') ->
  network st' = network st ++ [p] ->
  session_send E (ua_session ua) p (timeout ua)
  = SendTooManyRedirects ex_response ex ->
  match ex_response with
  | None =>
      res = Raise (McRequestException "Response from 'requests' is None.")
  | Some rr =>
      exists response,
        res = Ok response
        /\ code response = status_code rr
        /\ message response = reason rr
        /\ headers response = rr_headers rr
        /\ content response = Some ex
        /\ error_is_client_side response = false
  end.
Proof.
  intros Hrun Hnet Hsend.
  rewrite (request_sent _ _ _ _ _ _ _ Hrun Hnet), Hsend.
  destruct ex_response as [rr|]; [|done].
  eexists. split; [reflexivity|]. by split_and!.
Qed.

(** X14. A body of text whose total size, counted in characters, does
    not exceed the limit (a size equal to the limit included) is returned
    whole, every chunk of the stream read; so is every body of text when
    no limit is set. *)
Theorem body_within_the_limit_is_whole
    (E : Env) (ua : UserAgent) (request_ : option ref) (st st' : State)
    (res : result Response) (p : PreparedRequest) (rr : RequestsResponse)
    (chunks : list string) :
  request E ua request_ st = (res, st') ->
  network st' = network st ++ [p] ->
  session_send E (ua_session ua) p (timeout ua) = SendOk rr ->
  iter_content rr = yields chunks StopIteration ->
  (forall m, max_size ua = Some m -> len_chars (str_concat chunks) <= m) ->
  read_body (max_size ua) (iter_content rr) EmptyString 0
  = Ok (str_concat chunks, len_chars (str_concat chunks), StopIteration)
  /\ exists response,
       res = Ok response
       /\ content response = Some (str_concat chunks).
Proof.
  intros Hrun Hnet Hsend Hstream Hfit.
  assert (size_of_first (length chunks) chunks = len_chars (str_concat chunks))
    as Htotal by (unfold size_of_first; by rewrite firstn_all).
  assert (read_body (max_size ua) (iter_content rr) EmptyString 0
          = Ok (str_concat chunks, len_chars (str_concat chunks),
                StopIteration)) as Hread.
  { rewrite Hstream.
    destruct (read_body_yields (max_size ua) chunks StopIteration
                EmptyString 0)
      as [(k & m & Hms & Hk & _ & Hpast & _)|[_ ->]].
    - specialize (Hfit m Hms).
      pose proof (size_of_first_mono k (length chunks) chunks). lia.
    - simpl. by rewrite Htotal. }
  split; [done|].
  rewrite (request_sent _ _ _ _ _ _ _ Hrun Hnet), Hsend.
  unfold response_of_outcome, handle_outcome. rewrite Hread.
  eexists. by split.
Qed.


(** ** More on the redirect resolver *)

(** X15. [get()] and [get_follow_http_html_redirects()] reject [None] and
    a URL that is not HTTP(s) after [fix_common_url_mistakes], with their
    own exception, before anything else happens: no object is made, no
    line is logged, nothing is sent. *)
Theorem urls_are_validated_before_any_effect
    (E : Env) (ua : UserAgent) (url_ : option string) (st : State) :
  (url_ = None
   \/ exists u, url_ = Some u
                /\ is_http_url E (fix_common_url_mistakes E u) = false) ->
  (exists msg, get E ua url_ st = (Raise (McGetException msg), st))
  /\ (exists msg,
        get_follow_http_html_redirects E ua url_ st
        = (Raise (McGetFollowHTTPHTMLRedirectsException msg), st)).
Proof.
  unfold get, get_follow_http_html_redirects.
  intros [->|(u & -> & Hu)]; [split; by eexists|].
  rewrite Hu. simpl. split; by eexists.
Qed.

Lemma follow_nothing_fires E ua max_redirect_ inner_next response_ base_url
    functions st :
  Forall (does_not_fire E response_ base_url) functions ->
  follow_redirect_functions E ua max_redirect_ inner_next response_ base_url
    functions st
  = (Ok (Some response_), st).
Proof.
  induction 1 as [|f functions Hf _ IH]; simpl; [done|].
  unfold does_not_fire in Hf.
  destruct (f (decoded_content E response_) base_url) as [rq|]; [|done].
  by rewrite decide_False by (by rewrite Hf; intros []).
Qed.

(** X16. When no application-layer redirect fires on the first response
    (it is not a success, or each of the five redirect functions finds
    nothing or the URL the response already has), the resolver returns
    that response and makes no further request. *)
Theorem resolver_returns_the_first_response_when_nothing_fires
    (E : Env) (ua : UserAgent) (u : string) (n : Z) (st st' : State)
    (r : Response) :
  max_redirect ua = Some n ->
  0 < n ->
  is_http_url E (fix_common_url_mistakes E u) = true ->
  get E ua (Some (fix_common_url_mistakes E u)) st = (Ok r, st') ->
  (is_success E r = false
   \/ exists ur,
        rq_url (request_of r) = Some ur
        /\ Forall (does_not_fire E r (get_base_url E ur))
             (html_redirect_functions E)) ->
  get_follow_http_html_redirects E ua (Some u) st = (Ok r, st').
Proof.
  intros Hmax Hn Hhttp Hget Hquiet.
  unfold get_follow_http_html_redirects. rewrite Hhttp. cbn [negb].
  rewrite decide_False by (rewrite Hmax; intros [= ->]; lia).
  unfold mbind, M_bind at 1. cbv beta. rewrite Hget, Hmax.
  destruct (Z.to_nat n) as [|left'] eqn:Hleft; [lia|].
  unfold mbind, M_bind at 1. cbv beta. cbn [inner].
  unfold inner_follow_redirects.
  destruct Hquiet as [-> | (ur & Hur & Hall)]; [done|].
  destruct (is_success E r); [|done].
  rewrite Hur. by rewrite follow_nothing_fires.
Qed.

Lemma url_embedded_replicate E u k :
  url_embedded E (quote u) (replicate (S k) u) = embeds_own_encoding E u.
Proof.
  unfold url_embedded, embeds_own_encoding. cbn [replicate existsb].
  destruct (re_search E (re_escape E (quote u)) u true) eqn:Hs; [done|].
  induction k as [|k IH]; [done|]. cbn [replicate existsb]. by rewrite Hs.
Qed.

Lemma redirects_exhausted_loop_step E fuel response_ previous_ u urls :
  previous response_ = Some previous_ ->
  rq_url (request_of previous_) = Some u ->
  redirects_exhausted_loop E (S fuel) response_ urls
  = if url_embedded E (quote u) urls then Ok (Some previous_)
    else redirects_exhausted_loop E fuel response_ (urls ++ [u]).
Proof. intros Hprev Hu. simpl. by rewrite Hprev, Hu. Qed.

Lemma redirects_exhausted_loop_repeat E fuel response_ previous_ u k :
  previous response_ = Some previous_ ->
  rq_url (request_of previous_) = Some u ->
  redirects_exhausted_loop E (S fuel) response_ (replicate (S k) u)
  = if embeds_own_encoding E u then Ok (Some previous_) else Ok None.
Proof.
  intros Hprev Hu. revert k.
  induction fuel as [|fuel IH]; intros k;
    rewrite (redirects_exhausted_loop_step _ _ _ _ _ _ Hprev Hu);
    rewrite url_embedded_replicate;
    destruct (embeds_own_encoding E u) eqn:Hemb; try done.
  change (replicate (S k) u ++ [u])
    with (replicate (S k) u ++ replicate 1 u).
  rewrite <- replicate_add, Nat.add_1_r, IH. by rewrite ?Hemb.
Qed.

(** X17. With [max_redirect] at least 1, what [__inner_redirects_exhausted]
    returns depends on the nearest prior hop alone: it returns that hop
    exactly when the hop's own URL contains, case-insensitively, its own
    URL-encoding, and [None] otherwise (also when there is no prior hop).
    URLs of hops further down the chain are never looked at. *)
Theorem redirects_exhausted_looks_at_the_nearest_hop_only
    (E : Env) (max_redirect_ : Z) (response_ : Response) :
  1 <= max_redirect_ ->
  inner_redirects_exhausted E max_redirect_ response_
  = match previous response_ with
    | None => Ok None
    | Some previous_ =>
        match rq_url (request_of previous_) with
        | None => Raise TypeError
        | Some u =>
            if embeds_own_encoding E u then Ok (Some previous_) else Ok None
        end
    end.
Proof.
  intros Hmax. unfold inner_redirects_exhausted.
  destruct (Z.to_nat (max_redirect_ + 1)) as [|[|fuel]] eqn:Hfuel; [lia|lia|].
  destruct (previous response_) as [previous_|] eqn:Hprev;
    [|by simpl; rewrite Hprev].
  destruct (rq_url (request_of previous_)) as [u|] eqn:Hu;
    [|by simpl; rewrite Hprev, Hu].
  rewrite (redirects_exhausted_loop_step _ _ _ _ _ _ Hprev Hu).
  change (url_embedded E (quote u) []) with false. cbn iota.
  change ([] ++ [u]) with (replicate 1 u).
  by rewrite (redirects_exhausted_loop_repeat E fuel response_ previous_ u 0).
Qed.


Lemma find_initial_spec fuel redirect_response previous_ depth :
  ((length (previous_chain redirect_response) < fuel)%nat ->
   find_initial fuel redirect_response previous_ depth
   = (None, (depth + length (previous_chain redirect_response))%nat))
  /\ ((0 < fuel <= length (previous_chain redirect_response))%nat ->
      exists p,
        (find_initial fuel redirect_response previous_ depth).1 = Some p).
Proof.
  revert redirect_response previous_ depth.
  induction fuel as [|fuel IH]; intros r prev d; [split; lia|].
  rewrite (previous_chain_unfold r). cbn [find_initial].
  destruct (previous r) as [p|]; cbn [length].
  - destruct (IH p (Some p) (S d)) as [IHshort IHlong]. split.
    + intros Hlen. rewrite IHshort by lia. f_equal. lia.
    + intros Hlen. destruct fuel as [|fuel]; [by exists p|].
      apply IHlong. lia.
  - split; [intros _; f_equal; lia | lia].
Qed.

Lemma set_previous_at_same_hop depth r p : same_hop (set_previous_at depth r p) r.
Proof.
  unfold same_hop. destruct depth; simpl; [done|]. by destruct (previous r).
Qed.

Lemma set_previous_at_chain r p :
  exists hops,
    previous_chain (set_previous_at (length (previous_chain r)) r p)
    = hops ++ p :: previous_chain p
    /\ Forall2 same_hop hops (previous_chain r).
Proof.
  remember (length (previous_chain r)) as n eqn:Hn.
  revert r Hn. induction n as [|n IH]; intros r Hn;
    rewrite (previous_chain_unfold r) in *;
    destruct (previous r) as [q|] eqn:Hq; try discriminate.
  - exists []. split; [|constructor].
    cbn [set_previous_at]. by rewrite previous_chain_unfold.
  - injection Hn as Hn. destruct (IH q Hn) as (hops & Hchain & Hsame).
    exists (set_previous_at n q p :: hops). split.
    + cbn [set_previous_at]. rewrite Hq, previous_chain_unfold. simpl.
      by rewrite Hchain.
    + constructor; [apply set_previous_at_same_hop | done].
Qed.

(** X18. One hop of [__inner_follow_redirects]. When the first redirect
    function that fires asks for [rq'] and the request for it returns
    [orig]: if the [previous] chain of [orig] has at most [max_redirect]
    hops, [__inner] goes on with [orig] relinked, its chain now being its
    own hops (each as before but for its link) followed by the current
    response and that response's chain, both untouched; if the chain is
    longer, [McGetFollowHTTPHTMLRedirectsException] is raised. An
    exception of the request itself is passed on. *)
Theorem a_redirect_hop_links_the_chains
    (E : Env) (ua : UserAgent) (max_redirect_ : Z)
    (inner_next : Response -> M (option Response)) (response_ : Response)
    (base_url : string)
    (skipped rest : list (string -> string -> option Request))
    (f : string -> string -> option Request) (rq' : Request) (st : State) :
  0 <= max_redirect_ ->
  Forall (does_not_fire E response_ base_url) skipped ->
  f (decoded_content E response_) base_url = Some rq' ->
  rq_url rq' <> rq_url (request_of response_) ->
  match fetch_request E ua rq' st with
  | (Raise e, st2) =>
      follow_redirect_functions E ua max_redirect_ inner_next response_
        base_url (skipped ++ f :: rest) st
      = (Raise e, st2)
  | (Ok orig, st2) =>
      if decide (Z.of_nat (length (previous_chain orig)) <= max_redirect_)
      then
        exists linked hops,
          follow_redirect_functions E ua max_redirect_ inner_next response_
            base_url (skipped ++ f :: rest) st
          = inner_next linked st2
          /\ same_hop linked orig
          /\ previous_chain linked
             = hops ++ response_ :: previous_chain response_
          /\ Forall2 same_hop hops (previous_chain orig)
      else
        exists msg,
          follow_redirect_functions E ua max_redirect_ inner_next response_
            base_url (skipped ++ f :: rest) st
          = (Raise (McGetFollowHTTPHTMLRedirectsException msg), st2)
  end.
Proof.
  intros Hmax Hskipped Hf Hdiff.
  assert (follow_redirect_functions E ua max_redirect_ inner_next response_
            base_url (skipped ++ f :: rest) st
          = follow_redirect_functions E ua max_redirect_ inner_next response_
              base_url (f :: rest) st) as ->.
  { induction Hskipped as [|g skipped Hg _ IH]; [done|].
    simpl. unfold does_not_fire in Hg.
    destruct (g (decoded_content E response_) base_url) as [rq|]; [|done].
    by rewrite decide_False by (by rewrite Hg; intros []). }
  cbn [follow_redirect_functions]. rewrite Hf.
  rewrite decide_True by done.
  unfold fetch_request. unfold mbind, M_bind. cbv beta.
  destruct (alloc rq' st) as [[r|e] st1]; [|done].
  destruct (request E ua (Some r) st1) as [[orig|e] st2]; [|done].
  destruct (find_initial_spec (Z.to_nat (max_redirect_ + 1)) orig None 0)
    as [Hshort Hlong].
  destruct (decide (Z.of_nat (length (previous_chain orig)) <= max_redirect_))
    as [Hle|Hgt].
  - rewrite Hshort by lia. simpl.
    destruct (set_previous_at_chain orig response_) as (hops & Hchain & Hsame).
    eexists _, hops. split; [done|].
    split; [apply set_previous_at_same_hop | done].
  - destruct Hlong as [p Hp]; [lia|].
    destruct (find_initial _ _ _ _) as [prev depth]. simpl in Hp. subst prev.
    by eexists.
Qed.


(** ** The resolver's budget *)




Lemma extends_any k but st st' :
  extends k None st st' -> extends k but st st'.
Proof.
  intros (s & l & Hn & Hl & Hlen & Hh). exists s, l.
  split_and!; [done | done | lia | lia |].
  intros r rq _. by apply Hh.
Qed.








(** ** Domains and buckets of [parallel_get] *)

Lemma str_split_aux_label l rest cur :
  no_dot l = true ->
  str_split_aux "." (l +:+ rest) cur = str_split_aux "." rest (cur +:+ l).
Proof.
  revert cur. induction l as [|c l IH]; intros cur Hl.
  - by rewrite str_app_nil_r.
  - cbn [no_dot] in Hl. apply andb_true_iff in Hl as [Hc Hl].
    rewrite str_app_cons. cbn [str_split_aux].
    apply negb_true_iff in Hc. rewrite Hc.
    rewrite IH by done. by rewrite str_app_assoc.
Qed.

Lemma str_split_aux_join l ls cur :
  Forall (fun l => no_dot l = true) (l :: ls) ->
  str_split_aux "." (str_join "." (l :: ls)) cur = (cur +:+ l) :: ls.
Proof.
  revert l cur. induction ls as [|l' ls IH]; intros l cur Hall.
  - cbn [str_join]. rewrite <- (str_app_nil_r l) at 1.
    rewrite str_split_aux_label by (by inversion Hall). done.
  - inversion Hall as [|? ? Hl Hrest]; subst.
    change (str_join "." (l :: l' :: ls))
      with (l +:+ String "." (str_join "." (l' :: ls))).
    rewrite str_split_aux_label by done.
    cbn [str_split_aux]. rewrite Ascii.eqb_refl.
    by rewrite IH.
Qed.

Lemma str_split_join labels :
  labels <> [] -> Forall (fun l => no_dot l = true) labels ->
  str_split "." (str_join "." labels) = labels.
Proof.
  intros Hne Hall. destruct labels as [|l ls]; [done|].
  unfold str_split. by rewrite str_split_aux_join.
Qed.

Lemma py_index_lookup {A} (l : list A) i x :
  0 <= i -> l !! Z.to_nat i = Some x -> py_index l i = Ok x.
Proof.
  intros Hi Hx. unfold py_index.
  assert ((i <? 0) = false) as -> by lia.
  assert ((i <? 0) = false) as -> by lia.
  by rewrite Hx.
Qed.

Lemma py_index_from_end {A} (l : list A) i x :
  i < 0 -> 0 <= i + len l -> l !! Z.to_nat (i + len l) = Some x ->
  py_index l i = Ok x.
Proof.
  intros Hi Hj Hx. unfold py_index.
  assert ((i <? 0) = true) as -> by lia.
  assert ((i + len l <? 0) = false) as -> by lia.
  by rewrite Hx.
Qed.

Lemma len_app {A} (l k : list A) : len (l ++ k) = len l + len k.
Proof. unfold len. rewrite length_app. lia. Qed.

Lemma lookup_app_at {A} (l k : list A) (i : nat) (j : Z) :
  j = len l + Z.of_nat i -> 0 <= j -> (l ++ k) !! Z.to_nat j = k !! i.
Proof.
  intros -> _. unfold len.
  replace (Z.to_nat (Z.of_nat (length l) + Z.of_nat i))
    with (length l + i)%nat by lia.
  by rewrite lookup_app_r, Nat.add_comm, Nat.add_sub by lia.
Qed.

(** X20. For an HTTP URL whose host matches neither the country pattern
    nor the multi-tenant pattern, [__get_url_domain] is the lower-cased
    last two labels of the host whatever comes before them; a host of one
    label [h] gives [h.h], because the index [n - 1] is then [-1] and
    counts from the end. *)
Theorem domain_is_the_last_two_host_labels (E : Env) (u : string) :
  is_http_url E u = true ->
  re_search E "\...$" (get_url_host E u) false = false ->
  re_search E "(localhost|blogspot\.com|wordpress\.com)" (get_url_host E u)
    false = false ->
  (forall front a b,
     get_url_host E u = str_join "." (front ++ [a; b]) ->
     Forall (fun l => no_dot l = true) (front ++ [a; b]) ->
     get_url_domain E u = Ok (str_lower (a +:+ "." +:+ b)))
  /\ (no_dot (get_url_host E u) = true ->
      get_url_domain E u
      = Ok (str_lower (get_url_host E u +:+ "." +:+ get_url_host E u))).
Proof.
  intros Hhttp Hcountry Htenant. split.
  - intros front a b Hhost Hall.
    unfold get_url_domain. rewrite Hhttp, Hcountry, Htenant. cbn [negb].
    rewrite Hhost, str_split_join by (done || by destruct front).
    rewrite len_app.
    rewrite (py_index_lookup _ (len front + len [a; b] - 1 - 1) a); cycle 1.
    { unfold len. simpl. lia. }
    { by rewrite (lookup_app_at front [a; b] 0) by (unfold len; simpl; lia). }
    rewrite (py_index_lookup _ (len front + len [a; b] - 1) b); cycle 1.
    { unfold len. simpl. lia. }
    { by rewrite (lookup_app_at front [a; b] 1) by (unfold len; simpl; lia). }
    done.
  - intros Hlabel.
    unfold get_url_domain. rewrite Hhttp, Hcountry, Htenant. cbn [negb].
    pose proof (str_split_join [get_url_host E u]) as Hsplit.
    cbn [str_join] in Hsplit. rewrite Hsplit by (by repeat constructor).
    done.
Qed.

(** X21. For an HTTP URL whose host matches the country pattern and has
    at least three labels, [__get_url_domain] joins the third and the
    second label from the end with the FIRST label of the host, in lower
    case: the last label, the country code itself, is not part of the
    result. *)
Theorem country_domain_ends_with_the_first_label
    (E : Env) (u : string) (front : list string) (a b c first : string) :
  is_http_url E u = true ->
  re_search E "\...$" (get_url_host E u) false = true ->
  get_url_host E u = str_join "." (front ++ [a; b; c]) ->
  Forall (fun l => no_dot l = true) (front ++ [a; b; c]) ->
  head (front ++ [a; b; c]) = Some first ->
  get_url_domain E u
  = Ok (str_lower (a +:+ "." +:+ b +:+ "." +:+ first)).
Proof.
  intros Hhttp Hcountry Hhost Hall Hfirst.
  unfold get_url_domain. rewrite Hhttp, Hcountry. cbn [negb].
  rewrite Hhost, str_split_join by (done || by destruct front).
  rewrite len_app.
  rewrite (py_index_lookup _ (len front + len [a; b; c] - 1 - 2) a); cycle 1.
  { unfold len. simpl. lia. }
  { by rewrite (lookup_app_at front [a; b; c] 0) by (unfold len; simpl; lia). }
  rewrite (py_index_lookup _ (len front + len [a; b; c] - 1 - 1) b); cycle 1.
  { unfold len. simpl. lia. }
  { by rewrite (lookup_app_at front [a; b; c] 1) by (unfold len; simpl; lia). }
  rewrite (py_index_lookup _ 0 first); cycle 1.
  { done. }
  { by rewrite <- head_lookup. }
  done.
Qed.


Lemma bucket_urls_get E urls (d domain_urls : dict string (list string)) k :
  bucket_urls E urls d = Ok domain_urls ->
  dict_get k domain_urls
  = match filter (fun u => get_url_domain E u = Ok k) urls with
    | [] => dict_get k d
    | arrived => Some (default [] (dict_get k d) ++ arrived)
    end.
Proof.
  revert d. induction urls as [|u urls IH]; intros d Hb; simpl in Hb.
  - by injection Hb as <-.
  - destruct (get_url_domain E u) as [domain|] eqn:Hu; [|done]. simpl in Hb.
    rewrite (IH _ Hb). rewrite filter_cons, Hu.
    destruct (decide (Ok domain = Ok k)) as [Heq|Hne].
    + injection Heq as ->. rewrite dict_get_append_eq.
      destruct (filter _ urls); simpl; [done|].
      by rewrite <- app_assoc.
    + rewrite dict_get_append_ne by congruence. done.
Qed.

Lemma bucket_urls_keys E urls (d domain_urls : dict string (list string)) :
  bucket_urls E urls d = Ok domain_urls -> NoDup d.*1 -> NoDup domain_urls.*1.
Proof.
  revert d. induction urls as [|u urls IH]; intros d Hb Hd; simpl in Hb.
  - by injection Hb as <-.
  - destruct (get_url_domain E u) as [domain|]; [|done]. simpl in Hb.
    eapply IH; [done|]. by apply dict_append_keys_NoDup.
Qed.

(** X22. The first loop of [__get_scheduled_urls] files every URL under
    its domain and nothing else: each domain is one key, its bucket is the
    URLs of that domain in the order in which they were given, and a
    domain of no URL has no key. *)
Theorem buckets_keep_the_order_of_arrival
    (E : Env) (urls : list string) (domain_urls : dict string (list string)) :
  bucket_urls E urls [] = Ok domain_urls ->
  NoDup domain_urls.*1
  /\ forall domain,
       dict_get domain domain_urls
       = match filter (fun u => get_url_domain E u = Ok domain) urls with
         | [] => None
         | arrived => Some arrived
         end.
Proof.
  intros Hb. split.
  - eapply bucket_urls_keys; [done | constructor].
  - intros domain. by rewrite (bucket_urls_get _ _ _ _ domain Hb).
Qed.

(** X23. With a configured worker count below 1, [parallel_get] on a
    non-empty list of URLs whose domains can be computed raises before
    any worker runs, whatever the URLs answer: [ZeroDivisionError] from
    the partition loop at 0, and [ValueError] from [multiprocessing.Pool]
    for a negative count, after the partition has been made. *)
Theorem parallel_get_needs_a_worker
    (E : Env) (urls : list string)
    (num_parallel timeout_ per_domain_timeout : Z) :
  urls <> [] ->
  web_store_num_parallel (config E) = Some num_parallel ->
  web_store_timeout (config E) = Some timeout_ ->
  web_store_per_domain_timeout (config E) = Some per_domain_timeout ->
  num_parallel < 1 ->
  Forall (fun u => is_Ok (get_url_domain E u)) urls ->
  parallel_get E (Some urls)
  = Raise (if decide (num_parallel = 0) then ZeroDivisionError
           else ValueError "Number of processes must be at least 1").
Proof.
  intros Hne Hnum Htimeout Hper Hlow Hdomains.
  destruct (bucket_urls_Ok E urls [] Hdomains) as [domain_urls Hb].
  assert (exists url_stack,
            get_scheduled_urls E urls per_domain_timeout = Ok url_stack)
    as [url_stack Hsched].
  { unfold get_scheduled_urls. rewrite Hb. by eexists. }
  unfold parallel_get.
  assert ((len urls =? 0) = false) as ->.
  { destruct urls; [done|]. unfold len. simpl. lia. }
  rewrite Hnum, Htimeout, Hper, Hsched. simpl.
  case_decide as Hzero.
  - subst num_parallel. unfold make_url_blocks.
    rewrite url_blocks_loop_zero; [done|].
    intros Hrev. apply Hne.
    apply Permutation_nil_r. rewrite <- (get_scheduled_urls_perm _ _ _ _ Hsched).
    rewrite <- (reverse_involutive url_stack), Hrev. done.
  - unfold make_url_blocks.
    destruct (url_blocks_loop_Ok num_parallel (reverse url_stack) [] Hzero)
      as [blocks ->].
    simpl. unfold Pool.
    assert ((num_parallel <? 1) = true) as -> by lia.
    done.
Qed.


(** ** The further properties at concrete inputs *)

Lemma UserAgent_new_defaults_witness :
  (exists ua,
     UserAgent_new (test_env test_config web_hello) = Ok ua
     /\ dict_get "From" (session_headers (ua_session ua))
        = Some "owner@example.com"
     /\ dict_get "http://" (adapters (ua_session ua))
        = Some {| max_retries := None |})
  /\ UserAgent_new (test_env test_config_no_owner web_hello)
     = Raise (KeyError "owner").
Proof.
  split.
  - destruct (proj2 (proj2 (UserAgent_new_defaults
                              (test_env test_config web_hello)))
                "owner@example.com" "mediawords bot" eq_refl eq_refl)
      as (ua & Hnew & _ & _ & _ & _ & Hhttp & _ & Hfrom & _).
    exists ua. split; [exact Hnew|]. split; [exact Hfrom | exact Hhttp].
  - exact (proj1 (UserAgent_new_defaults
                    (test_env test_config_no_owner web_hello)) eq_refl).
Defined.

Lemma set_timing_last_call_wins_witness :
  exists ua1,
    set_timing test_ua (TimingList [1; 2]) = Ok ua1
    /\ set_timing ua1 (TimingList [4]) = set_timing test_ua (TimingList [4]).
Proof.
  eexists. split; [reflexivity|].
  apply (set_timing_last_call_wins test_ua _ (TimingList [1; 2])
           (TimingList [4])).
  reflexivity.
Defined.

Lemma request_validation_witness :
  request (test_env test_config web_hello) test_ua None
    (state_with_request EmptyString)
  = (Raise (McRequestException "Request is None."),
     state_with_request EmptyString)
  /\ exists msg,
       request (test_env test_config web_hello) test_ua (Some 0%nat)
         (state_with_request EmptyString)
       = (Raise (McRequestException msg), state_with_request EmptyString).
Proof.
  destruct (request_validation_sends_nothing
              (test_env test_config web_hello) test_ua 0%nat
              (Request_new "GET" EmptyString)
              (state_with_request EmptyString) eq_refl)
    as (Hnone & Hurl & _).
  split; [exact Hnone|]. apply Hurl. by right.
Defined.



Lemma too_many_redirects_witness :
  exists response,
    (request (test_env test_config web_loop) test_ua (Some 0%nat)
       (state_with_request "http://a.com/1")).1 = Ok response
    /\ code response = 302
    /\ content response = Some "Exceeded 15 redirects."
    /\ error_is_client_side response = false.
Proof.
  destruct (too_many_redirects_returns_the_last_response
              (test_env test_config web_loop) test_ua (Some 0%nat)
              (state_with_request "http://a.com/1") _ _
              (pr_of_request test_ua "http://a.com/1") _ _
              (surjective_pairing _) eq_refl eq_refl)
    as (response & Hres & Hcode & _ & _ & Hcontent & Hclient).
  exists response. split_and!; done.
Defined.

Lemma body_within_the_limit_witness :
  (exists response,
     (request (test_env test_config web_chunks) test_ua (Some 0%nat)
        (state_with_request "http://a.com/1")).1 = Ok response
     /\ content response = Some "aaaabbbbcccc")
  /\ (exists response,
        (request (test_env test_config web_accents) test_ua_small
           (Some 0%nat) (state_with_request "http://a.com/1")).1
        = Ok response
        /\ content response
           = Some (e_acute +:+ e_acute +:+ e_acute +:+ "x")).
Proof.
  split.
  - destruct (body_within_the_limit_is_whole
                (test_env test_config web_chunks) test_ua (Some 0%nat)
                (state_with_request "http://a.com/1") _ _
                (pr_of_request test_ua "http://a.com/1")
                (mkRequestsResponse 200 "OK" []
                   (pr_of_request test_ua "http://a.com/1") []
                   (yields ["aaaa"; "bbbb"; "cccc"] StopIteration))
                ["aaaa"; "bbbb"; "cccc"]
                (surjective_pairing _) eq_refl eq_refl eq_refl)
      as (_ & response & Hres & Hcontent).
    + intros m [= <-]. vm_compute. discriminate.
    + exists response. split; [exact Hres | exact Hcontent].
  - destruct (body_within_the_limit_is_whole
                (test_env test_config web_accents) test_ua_small (Some 0%nat)
                (state_with_request "http://a.com/1") _ _
                (pr_of_request test_ua_small "http://a.com/1")
                (mkRequestsResponse 200 "OK" []
                   (pr_of_request test_ua_small "http://a.com/1") []
                   (yields [e_acute +:+ e_acute +:+ e_acute; "x"]
                      StopIteration))
                [e_acute +:+ e_acute +:+ e_acute; "x"]
                (surjective_pairing _) eq_refl eq_refl eq_refl)
      as (_ & response & Hres & Hcontent).
    + intros m [= <-]. vm_compute. discriminate.
    + exists response. split; [exact Hres | exact Hcontent].
Defined.

Lemma urls_are_validated_witness :
  (exists msg,
     get (test_env test_config web_hello) test_ua (Some "ftp://a.com/2")
       State_empty
     = (Raise (McGetException msg), State_empty))
  /\ (exists msg,
        get_follow_http_html_redirects (test_env test_config web_hello)
          test_ua (Some "ftp://a.com/2") State_empty
        = (Raise (McGetFollowHTTPHTMLRedirectsException msg), State_empty)).
Proof.
  apply (urls_are_validated_before_any_effect
           (test_env test_config web_hello) test_ua (Some "ftp://a.com/2")
           State_empty).
  right. exists "ftp://a.com/2". split; reflexivity.
Defined.

Lemma resolver_returns_the_first_response_witness :
  exists r st',
    get (test_env test_config web_hello) test_ua (Some "http://a.com/1")
      State_empty = (Ok r, st')
    /\ get_follow_http_html_redirects (test_env test_config web_hello)
         test_ua (Some "http://a.com/1") State_empty = (Ok r, st').
Proof.
  eexists _, _. split; [vm_compute; reflexivity|].
  apply (resolver_returns_the_first_response_when_nothing_fires
           (test_env test_config web_hello) test_ua "http://a.com/1" 15).
  - reflexivity.
  - lia.
  - reflexivity.
  - vm_compute. reflexivity.
  - right. eexists. split; [reflexivity|].
    repeat (constructor; [exact I|]). constructor.
Defined.

Lemma redirects_exhausted_nearest_hop_witness :
  inner_redirects_exhausted paywall_env 3 self_matching_response
  = Ok (Some plain_response)
  /\ inner_redirects_exhausted paywall_env 3 login_response = Ok None.
Proof.
  split.
  - exact (redirects_exhausted_looks_at_the_nearest_hop_only
             paywall_env 3 self_matching_response ltac:(lia)).
  - exact (redirects_exhausted_looks_at_the_nearest_hop_only
             paywall_env 3 login_response ltac:(lia)).
Defined.


Lemma a_redirect_hop_links_the_chains_witness :
  exists linked st2,
    follow_redirect_functions paywall_env test_ua 15
      (fun r st => (Ok (Some r), st)) paywall_response paywall_url
      (html_redirect_functions paywall_env) State_empty
    = (Ok (Some linked), st2)
    /\ code linked = 200
    /\ previous_chain linked = [paywall_response; story_response].
Proof.
  pose proof (a_redirect_hop_links_the_chains
                paywall_env test_ua 15 (fun r st => (Ok (Some r), st))
                paywall_response paywall_url []
                [target_request_from_archive_org_url paywall_env;
                 target_request_from_archive_is_url paywall_env;
                 target_request_from_linkis_com_url paywall_env;
                 target_request_from_alarabiya_url paywall_env]
                (target_request_from_meta_refresh_url paywall_env)
                (Request_new "GET" login_url) State_empty
                ltac:(lia) ltac:(constructor) eq_refl ltac:(discriminate))
    as Hhop.
  destruct (fetch_request paywall_env test_ua (Request_new "GET" login_url)
              State_empty) as [[orig|e] st2] eqn:Hfetch;
    [|vm_compute in Hfetch; discriminate].
  assert (previous_chain orig = []) as Hchain.
  { vm_compute in Hfetch. by injection Hfetch as <- _. }
  assert (code orig = 200) as Hcode.
  { vm_compute in Hfetch. by injection Hfetch as <- _. }
  rewrite Hchain in Hhop. rewrite decide_True in Hhop by (simpl; lia).
  destruct Hhop as (linked & hops & Hrun & Hsame & Hlinked & Hhops).
  exists linked, st2. split_and!.
  - exact Hrun.
  - destruct Hsame as (-> & _). exact Hcode.
  - apply Forall2_nil_inv_r in Hhops as ->. exact Hlinked.
Defined.


Lemma domain_is_the_last_two_host_labels_witness :
  get_url_domain (test_env test_config web_hello) "http://www.Example.com/page"
  = Ok "example.com"
  /\ get_url_domain (test_env test_config web_hello) "http://intranet/page"
     = Ok "intranet.intranet".
Proof.
  split.
  - exact (proj1 (domain_is_the_last_two_host_labels
                    (test_env test_config web_hello)
                    "http://www.Example.com/page" eq_refl eq_refl eq_refl)
             ["www"] "Example" "com" eq_refl
             ltac:(repeat constructor)).
  - exact (proj2 (domain_is_the_last_two_host_labels
                    (test_env test_config web_hello)
                    "http://intranet/page" eq_refl eq_refl eq_refl)
             eq_refl).
Defined.

Lemma country_domain_witness :
  get_url_domain (test_env test_config web_hello) "http://www.bbc.co.uk/news"
  = Ok "bbc.co.www".
Proof.
  exact (country_domain_ends_with_the_first_label
           (test_env test_config web_hello) "http://www.bbc.co.uk/news"
           ["www"] "bbc" "co" "uk" "www" eq_refl eq_refl eq_refl
           ltac:(repeat constructor) eq_refl).
Defined.

Lemma buckets_keep_the_order_of_arrival_witness :
  NoDup ["a.com"; "b.com"]
  /\ filter (fun u => get_url_domain (test_env test_config web_hello) u
                      = Ok "a.com") three_urls
     = ["http://a.com/1"; "http://a.com/2"].
Proof.
  destruct (buckets_keep_the_order_of_arrival
              (test_env test_config web_hello) three_urls
              [("a.com", ["http://a.com/1"; "http://a.com/2"]);
               ("b.com", ["http://b.com/1"])] eq_refl)
    as [Hkeys Hget].
  split; [exact Hkeys|].
  specialize (Hget "a.com").
  change (dict_get "a.com" _)
    with (Some ["http://a.com/1"; "http://a.com/2"]) in Hget.
  revert Hget. destruct (filter _ three_urls); intros Hget;
    [discriminate Hget|].
  by inversion Hget.
Defined.

Lemma parallel_get_needs_a_worker_witness :
  parallel_get (test_env (test_config_workers (-2)) web_hello)
    (Some three_urls)
  = Raise (ValueError "Number of processes must be at least 1")
  /\ parallel_get (test_env (test_config_workers 0) web_hello)
       (Some three_urls)
     = Raise ZeroDivisionError.
Proof.
  split.
  - apply (parallel_get_needs_a_worker
             (test_env (test_config_workers (-2)) web_hello) three_urls
             (-2) 20 1); try done.
    repeat constructor; eexists; vm_compute; reflexivity.
  - apply (parallel_get_needs_a_worker
             (test_env (test_config_workers 0) web_hello) three_urls
             0 20 1); try done.
    repeat constructor; eexists; vm_compute; reflexivity.
Defined.
